(** * Genie chat relay (app.py): conversation orchestration and result rendering

    A shallow embedding of [src/app.py]: the two renderers
    [process_query_results] and [process_for_slack], the orchestrator
    [ask_genie] and the message handler [MyBot.on_message_activity].

    Python values that reach the renderers are the values [json.loads]
    produces; they are modelled by [pyval].  A Python [str] is a Rocq
    [string], one [ascii] per character, so text with characters beyond 255
    is outside the model.  A Python [int] is a [Z], a Python [float] is an
    IEEE binary64 number in the Standard Library's [spec_float].  Code that
    can raise returns in the error monad [res]; the exceptions are those
    that [except Exception] catches.  The limit that recent Python versions
    put on the number of digits of an [int] turned into text is not
    modelled.

    The back end behind [ask_genie] is a record of functions over a state
    of the world; the calls made are recorded in order.  Sending the reply
    is taken not to fail. *)

From Stdlib Require Import ZArith List String Ascii Bool Lia SpecFloat DecimalString.
From stdpp Require Import gmap strings.
Import ListNotations.

Set Warnings "-register-all".

Local Open Scope string_scope.
Local Open Scope Z_scope.
Local Open Scope nat_scope.

(** ** Exceptions and the error monad *)

Inductive exn : Type :=
| TypeError
| KeyError
| ValueError
| IndexError
| AttributeError
| OverflowError
| BackendError (detail : string).

Inductive res (A : Type) : Type :=
| Ok (a : A)
| Raise (e : exn).
Arguments Ok {A} a.
Arguments Raise {A} e.

#[global] Instance res_ret : MRet res := fun A a => Ok a.
#[global] Instance res_bind : MBind res := fun A B f m =>
  match m with
  | Ok a => f a
  | Raise e => Raise e
  end.

Fixpoint mapM_res {A B : Type} (f : A -> res B) (l : list A) : res (list B) :=
  match l with
  | [] => Ok []
  | a :: l' => b ← f a; bs ← mapM_res f l'; Ok (b :: bs)
  end.

Definition is_ok {A : Type} (r : res A) : bool :=
  match r with Ok _ => true | Raise _ => false end.

(** ** Python values *)

Inductive pyval : Type :=
| PNone
| PBool (b : bool)
| PInt (z : Z)
| PFloat (f : spec_float)
| PStr (s : string)
| PList (l : list pyval)
| PDict (d : list (string * pyval)).

(** A [dict] with [str] keys, in insertion order. *)
Abbreviation pydict := (list (string * pyval)).

Fixpoint dict_get (d : pydict) (k : string) : option pyval :=
  match d with
  | [] => None
  | (k', v) :: d' => if String.eqb k' k then Some v else dict_get d' k
  end.

(** [k in d] for a dict [d]. *)
Definition dict_has (d : pydict) (k : string) : bool :=
  match dict_get d k with Some _ => true | None => false end.

(** ** Strings *)

Module PyStr.

Definition join (sep : string) (l : list string) : string := String.concat sep l.

Fixpoint repeat_char (c : ascii) (n : nat) : string :=
  match n with
  | O => EmptyString
  | S n' => String c (repeat_char c n')
  end.

(** [s.ljust(w)]: pad with spaces on the right up to [w] characters. *)
Definition ljust (s : string) (w : nat) : string :=
  s ++ repeat_char " " (w - String.length s).

(** [s[:n]] *)
Definition take (n : nat) (s : string) : string := String.substring 0 n s.

(** [sub in s] *)
Definition contains (sub s : string) : bool :=
  match String.index 0 sub s with Some _ => true | None => false end.

Definition chars (s : string) : list string :=
  map (fun c => String c EmptyString) (list_ascii_of_string s).

End PyStr.

(** ** Number formatting *)

Module PyFmt.

(** Decimal digits of a natural number, most significant first. *)
Definition digits (n : N) : string := NilZero.string_of_uint (N.to_uint n).

(** [str(z)] for an [int]. *)
Definition str_int (z : Z) : string :=
  ((if (z <? 0)%Z then "-" else "") ++ digits (Z.abs_N z))%string.

(** Thousands separators: the digits are walked from the right and a comma
    is put before every fourth one. *)
Fixpoint commas_rev (l : list ascii) (k : nat) : list ascii :=
  match l with
  | [] => []
  | c :: l' =>
      if Nat.eqb k 3 then ","%char :: c :: commas_rev l' 1
      else c :: commas_rev l' (S k)
  end.

Definition group3 (ds : string) : string :=
  string_of_list_ascii (rev (commas_rev (rev (list_ascii_of_string ds)) 0)).

(** [f"{z:,}"] *)
Definition format_int_comma (z : Z) : string :=
  ((if (z <? 0)%Z then "-" else "") ++ group3 (digits (Z.abs_N z)))%string.

(** The integer nearest to [m * 2^e * 100], ties to even. *)
Definition hundredths (m : positive) (e : Z) : N :=
  match e with
  | Zneg p =>
      let num := (Npos m * 100)%N in
      let den := (2 ^ Npos p)%N in
      let q := (num / den)%N in
      let r := (num mod den)%N in
      match (2 * r ?= den)%N with
      | Lt => q
      | Gt => (q + 1)%N
      | Eq => if N.even q then q else (q + 1)%N
      end
  | _ => (Npos m * 2 ^ Z.to_N e * 100)%N
  end.

Definition two_digits (n : N) : string :=
  ((if (n <? 10)%N then "0" else "") ++ digits n)%string.

Definition sign_str (s : bool) : string := if s then "-" else "".

(** [f"{x:,.2f}"] *)
Definition format_float_comma_2f (x : spec_float) : string :=
  match x with
  | S754_nan => "nan"
  | S754_infinity s => sign_str s ++ "inf"
  | S754_zero s => sign_str s ++ "0.00"
  | S754_finite s m e =>
      let h := hundredths m e in
      sign_str s ++ group3 (digits (h / 100)%N) ++ "." ++ two_digits (h mod 100)%N
  end.

End PyFmt.

(** ** Conversions from text: [int(s)] and [float(s)] *)

Module PyParse.

Definition prec : Z := 53.
Definition emax : Z := 1024.

(** Characters that [int] and [float] strip from both ends of a string. *)
Definition is_space (c : ascii) : bool :=
  let n := nat_of_ascii c in
  ((9 <=? n) && (n <=? 13)) || (n =? 32) || (n =? 133) || (n =? 160).

Definition digit_of (c : ascii) : option N :=
  let n := nat_of_ascii c in
  if (48 <=? n) && (n <=? 57) then Some (N.of_nat (n - 48)) else None.

Definition lower (c : ascii) : ascii :=
  let n := nat_of_ascii c in
  if (65 <=? n) && (n <=? 90) then ascii_of_nat (n + 32) else c.

Fixpoint lstrip (l : list ascii) : list ascii :=
  match l with
  | c :: l' => if is_space c then lstrip l' else l
  | [] => []
  end.

Definition strip (l : list ascii) : list ascii := rev (lstrip (rev (lstrip l))).

(** A run of digits in which single underscores may stand between two
    digits.  Returns the value read so far, the number of digits and the
    unread rest. *)
Fixpoint scan_digits (l : list ascii) (acc : N) (cnt : nat) : N * nat * list ascii :=
  match l with
  | c :: l' =>
      match digit_of c with
      | Some d => scan_digits l' (acc * 10 + d)%N (S cnt)
      | None =>
          if Ascii.eqb c "_" then
            match cnt, l' with
            | S _, c' :: _ =>
                match digit_of c' with
                | Some _ => scan_digits l' acc cnt
                | None => (acc, cnt, l)
                end
            | _, _ => (acc, cnt, l)
            end
          else (acc, cnt, l)
      end
  | [] => (acc, cnt, [])
  end.

(** An optional sign; [true] for a minus. *)
Definition scan_sign (l : list ascii) : bool * list ascii :=
  match l with
  | c :: l' =>
      if Ascii.eqb c "-" then (true, l')
      else if Ascii.eqb c "+" then (false, l')
      else (false, l)
  | [] => (false, [])
  end.

(** [int(s)] for a [str], base ten. *)
Definition int_of_string (s : string) : res Z :=
  let '(neg, l) := scan_sign (strip (list_ascii_of_string s)) in
  match scan_digits l 0 0 with
  | (n, S _, []) => Ok (if neg then (- Z.of_N n)%Z else Z.of_N n)
  | _ => Raise ValueError
  end.

(** The binary64 number nearest to [m * 10^e10], ties to even. *)
Definition round_decimal (neg : bool) (m : N) (e10 : Z) : spec_float :=
  match m with
  | N0 => S754_zero neg
  | Npos p =>
      match e10 with
      | Zneg k =>
          let '(q, e', l) :=
            SFdiv_core_binary prec emax (Zpos p) 0 (Zpos (10 ^ k)) 0 in
          binary_round_aux prec emax neg q e' l
      | _ =>
          match (Npos p * 10 ^ Z.to_N e10)%N with
          | Npos q => binary_round prec emax neg q 0
          | N0 => S754_zero neg
          end
      end
  end.

(** The exponent part of a float literal, if there is one. *)
Definition scan_exponent (l : list ascii) : option (Z * list ascii) :=
  match l with
  | c :: l' =>
      if Ascii.eqb (lower c) "e" then
        let '(neg, l'') := scan_sign l' in
        match scan_digits l'' 0 0 with
        | (n, S _, rest) => Some (if neg then (- Z.of_N n)%Z else Z.of_N n, rest)
        | _ => None
        end
      else Some (0%Z, l)
  | [] => Some (0%Z, [])
  end.

Definition scan_fraction (l : list ascii) : N * nat * list ascii :=
  match l with
  | c :: l' => if Ascii.eqb c "." then scan_digits l' 0 0 else (0%N, 0, l)
  | [] => (0%N, 0, [])
  end.

(** [float(s)] for a [str]. *)
Definition float_of_string (s : string) : res spec_float :=
  let '(neg, l) := scan_sign (strip (list_ascii_of_string s)) in
  let word := string_of_list_ascii (map lower l) in
  if String.eqb word "inf" || String.eqb word "infinity" then Ok (S754_infinity neg)
  else if String.eqb word "nan" then Ok S754_nan
  else
    let '(ip, icnt, l1) := scan_digits l 0 0 in
    let '(fp, fcnt, l2) := scan_fraction l1 in
    match icnt + fcnt, scan_exponent l2 with
    | S _, Some (e, []) =>
        Ok (round_decimal neg (ip * 10 ^ N.of_nat fcnt + fp)%N (e - Z.of_nat fcnt)%Z)
    | _, _ => Raise ValueError
    end.

End PyParse.

(** ** Text of values: [str] and [repr] *)

Module PyRepr.

(** *** Floats: the shortest decimal that reads back as the same number *)

Section Shortest.
(** The number is [m * 2^e]; all quantities below are counted in units of
    [2^(e-2)], so that the number is [4m] and the two halfway points to
    its neighbours are integers. *)
Variables (m : positive) (e : Z).
Local Open Scope Z_scope.

Definition centre : Z := 4 * Zpos m.
Definition upper : Z := 4 * Zpos m + 2.
Definition lower : Z :=
  if ((Zpos m =? 2 ^ 52) && (-1074 <? e))%Z then 4 * Zpos m - 1 else 4 * Zpos m - 2.
Definition inclusive : bool := Z.even (Zpos m).

(** [t * scale_p k / scale_q k] is [t] units divided by [10^k]. *)
Definition scale_p (k : Z) : Z := 2 ^ Z.max (e - 2) 0 * 10 ^ Z.max (- k) 0.
Definition scale_q (k : Z) : Z := 2 ^ Z.max (2 - e) 0 * 10 ^ Z.max k 0.

(** Does [c * 10^k] round to the number? *)
Definition rounds_back (k c : Z) : bool :=
  let v := c * scale_q k in
  (0 <? c)%Z &&
  if inclusive
  then (lower * scale_p k <=? v)%Z && (v <=? upper * scale_p k)%Z
  else (lower * scale_p k <? v)%Z && (v <? upper * scale_p k)%Z.

(** The multiple of [10^k] that rounds to the number and is nearest to
    it, if there is one. *)
Definition candidate (k : Z) : option Z :=
  let x := centre * scale_p k in
  let q := scale_q k in
  let lo := x / q in
  let hi := lo + 1 in
  match rounds_back k lo, rounds_back k hi with
  | true, true =>
      match (x - lo * q ?= hi * q - x)%Z with
      | Lt => Some lo
      | Gt => Some hi
      | Eq => Some (if Z.even lo then lo else hi)
      end
  | true, false => Some lo
  | false, true => Some hi
  | false, false => None
  end.

Fixpoint search (fuel : nat) (k : Z) : option (Z * Z) :=
  match fuel with
  | O => None
  | S fuel' =>
      match candidate k with
      | Some c => Some (c, k)
      | None => search fuel' (k - 1)
      end
  end.

(** The digits [c] and the decimal exponent [k] of the shortest decimal
    [c * 10^k] that rounds to the number. *)
Definition shortest : Z * Z :=
  let b := Zpos (digits2_pos m) + e in
  match search 40 (b * 30103 / 100000 + 2) with
  | Some ck => ck
  | None => (Zpos m, 0%Z)
  end.
End Shortest.
Local Open Scope nat_scope.

Definition zeros (n : nat) : string := PyStr.repeat_char "0" n.

(** Lay out the digits [ds] with the decimal point after [decpt] of them. *)
Definition layout (ds : string) (decpt : Z) : string :=
  let n := Z.of_nat (String.length ds) in
  if ((decpt <=? -4) || (16 <? decpt))%Z then
    let ex := (decpt - 1)%Z in
    let exd := PyFmt.digits (Z.abs_N ex) in
    String.substring 0 1 ds
    ++ (if (1 <? n)%Z then "." ++ String.substring 1 (String.length ds - 1) ds else "")
    ++ "e" ++ (if (ex <? 0)%Z then "-" else "+")
    ++ (if (Z.abs ex <? 10)%Z then "0" else "") ++ exd
  else if (decpt <=? 0)%Z then "0." ++ zeros (Z.to_nat (- decpt)) ++ ds
  else if (decpt <? n)%Z then
    String.substring 0 (Z.to_nat decpt) ds ++ "."
    ++ String.substring (Z.to_nat decpt) (String.length ds - Z.to_nat decpt) ds
  else ds ++ zeros (Z.to_nat (decpt - n)) ++ ".0".

(** [repr(x)] for a [float]. *)
Definition repr_float (x : spec_float) : string :=
  match x with
  | S754_nan => "nan"
  | S754_infinity s => PyFmt.sign_str s ++ "inf"
  | S754_zero s => PyFmt.sign_str s ++ "0.0"
  | S754_finite s m e =>
      let '(c, k) := shortest m e in
      let ds := PyFmt.digits (Z.abs_N c) in
      PyFmt.sign_str s ++ layout ds (Z.of_nat (String.length ds) + k)
  end.

(** *** Strings *)

Definition hex_digit (n : nat) : ascii :=
  if n <? 10 then ascii_of_nat (48 + n) else ascii_of_nat (87 + n).

Definition printable (n : nat) : bool :=
  ((32 <=? n) && (n <? 127)) || ((161 <=? n) && negb (n =? 173)).

Definition backslash : ascii := "092".
Definition squote : ascii := "039".
Definition dquote : ascii := "034".

Definition escape_char (quote c : ascii) : string :=
  let n := nat_of_ascii c in
  if Ascii.eqb c quote || Ascii.eqb c backslash then String backslash (String c "")
  else if n =? 9 then String backslash "t"
  else if n =? 10 then String backslash "n"
  else if n =? 13 then String backslash "r"
  else if printable n then String c ""
  else String backslash
         (String "x" (String (hex_digit (n / 16)) (String (hex_digit (n mod 16)) ""))).

Fixpoint escape (quote : ascii) (s : string) : string :=
  match s with
  | EmptyString => EmptyString
  | String c s' => escape_char quote c ++ escape quote s'
  end.

Definition has_char (c : ascii) (s : string) : bool :=
  existsb (Ascii.eqb c) (list_ascii_of_string s).

(** [repr(s)] for a [str]: single quotes, unless the text has a single
    quote and no double quote. *)
Definition repr_str (s : string) : string :=
  let quote := if has_char squote s && negb (has_char dquote s) then dquote else squote in
  String quote (escape quote s) ++ String quote "".

(** *** All values *)

Fixpoint repr (v : pyval) : string :=
  match v with
  | PNone => "None"
  | PBool true => "True"
  | PBool false => "False"
  | PInt z => PyFmt.str_int z
  | PFloat f => repr_float f
  | PStr s => repr_str s
  | PList l => "[" ++ PyStr.join ", " (map repr l) ++ "]"
  | PDict d =>
      "{" ++ PyStr.join ", "
               (map (fun kv => match kv with (k, x) => repr_str k ++ ": " ++ repr x end) d)
      ++ "}"
  end.

(** [str(v)], which is also what an f-string puts for [{v}]. *)
Definition str (v : pyval) : string :=
  match v with
  | PStr s => s
  | _ => repr v
  end.

End PyRepr.

(** ** Built-in operations on values *)

Module Py.

(** Truth value of [v] in an [if] or an [and]. *)
Definition truthy (v : pyval) : bool :=
  match v with
  | PNone => false
  | PBool b => b
  | PInt z => negb (z =? 0)%Z
  | PFloat (S754_zero _) => false
  | PFloat _ => true
  | PStr s => negb (String.eqb s "")
  | PList l => match l with [] => false | _ => true end
  | PDict d => match d with [] => false | _ => true end
  end.

(** [len(v)] *)
Definition len (v : pyval) : res nat :=
  match v with
  | PStr s => Ok (String.length s)
  | PList l => Ok (length l)
  | PDict d => Ok (length d)
  | _ => Raise TypeError
  end.

(** The items a [for] loop over [v] sees. *)
Definition iter (v : pyval) : res (list pyval) :=
  match v with
  | PList l => Ok l
  | PStr s => Ok (map PStr (PyStr.chars s))
  | PDict d => Ok (map (fun kv => PStr (fst kv)) d)
  | _ => Raise TypeError
  end.

(** [v[k]] for a string [k]. *)
Definition getitem (v : pyval) (k : string) : res pyval :=
  match v with
  | PDict d => match dict_get d k with Some x => Ok x | None => Raise KeyError end
  | _ => Raise TypeError
  end.

(** [v[i]] for an index [i] that is not negative. *)
Definition getitem_int (v : pyval) (i : nat) : res pyval :=
  match v with
  | PList l => match l !! i with Some x => Ok x | None => Raise IndexError end
  | PStr s => match String.get i s with
              | Some c => Ok (PStr (String c ""))
              | None => Raise IndexError
              end
  | PDict _ => Raise KeyError
  | _ => Raise TypeError
  end.

(** [v == s] for a string [s]. *)
Definition eq_str (v : pyval) (s : string) : bool :=
  match v with PStr t => String.eqb t s | _ => false end.

(** [k in v] for a string [k]. *)
Definition contains (k : string) (v : pyval) : res bool :=
  match v with
  | PDict d => Ok (dict_has d k)
  | PList l => Ok (existsb (fun x => eq_str x k) l)
  | PStr s => Ok (PyStr.contains k s)
  | _ => Raise TypeError
  end.

(** [v in names] for a list of string literals. *)
Definition among (v : pyval) (names : list string) : bool :=
  existsb (eq_str v) names.

(** [float(v)] *)
Definition to_float (v : pyval) : res spec_float :=
  match v with
  | PFloat f => Ok f
  | PBool b => Ok (if b then binary_round PyParse.prec PyParse.emax false 1 0
                   else S754_zero false)
  | PInt z =>
      match binary_normalize PyParse.prec PyParse.emax z 0 false with
      | S754_infinity _ => Raise OverflowError
      | f => Ok f
      end
  | PStr s => PyParse.float_of_string s
  | _ => Raise TypeError
  end.

(** [int(v)] *)
Definition to_int (v : pyval) : res Z :=
  match v with
  | PInt z => Ok z
  | PBool b => Ok (if b then 1 else 0)%Z
  | PFloat (S754_zero _) => Ok 0%Z
  | PFloat (S754_finite s m e) =>
      let a := match e with
               | Zneg p => (Zpos m / 2 ^ Zpos p)%Z
               | _ => (Zpos m * 2 ^ e)%Z
               end in
      Ok (if s then (- a)%Z else a)
  | PFloat (S754_infinity _) => Raise OverflowError
  | PFloat S754_nan => Raise ValueError
  | PStr s => PyParse.int_of_string s
  | _ => Raise TypeError
  end.

(** [name.ljust(w)]: only a [str] has the method. *)
Definition ljust (v : pyval) (w : nat) : res string :=
  match v with
  | PStr s => Ok (PyStr.ljust s w)
  | _ => Raise AttributeError
  end.

(** [sep.join(items)] wants every item to be a [str]. *)
Definition join (sep : string) (items : list pyval) : res string :=
  l ← mapM_res (fun v => match v with PStr s => Ok s | _ => Raise TypeError end) items;
  Ok (PyStr.join sep l).

End Py.

(** ** The renderers *)

Definition NL : string := String "010" "".

Definition decimal_tags : list string := ["DECIMAL"; "DOUBLE"; "FLOAT"].
Definition integer_tags : list string := ["INT"; "BIGINT"; "LONG"].

(** *** [process_query_results] (plain text) *)

(** Lines 156-163: one cell [value] under the column [col]. *)
Definition plain_cell (value col : pyval) : res string :=
  match value with
  | PNone => Ok "NULL"
  | _ =>
      t ← Py.getitem col "type_name";
      if Py.among t decimal_tags then
        f ← Py.to_float value; Ok (PyFmt.format_float_comma_2f f)
      else
        t' ← Py.getitem col "type_name";
        if Py.among t' integer_tags then
          z ← Py.to_int value; Ok (PyFmt.format_int_comma z)
        else Ok (PyRepr.str value)
  end.

(** Lines 154-164: the cells of one row; [zip] stops at the shorter of the
    row and the column list. *)
Definition plain_cells (row : pyval) (cols : list pyval) : res (list string) :=
  values ← Py.iter row;
  mapM_res (fun vc => plain_cell (fst vc) (snd vc)) (combine values cols).

(** Line 165 *)
Definition plain_line (cells : list string) : string :=
  "| " ++ PyStr.join " | " cells ++ " |" ++ NL.

Definition plain_row (cols : list pyval) (row : pyval) : res string :=
  cells ← plain_cells row cols; Ok (plain_line cells).

(** Lines 142-143 *)
Definition plain_description (answer_json : pydict) : string :=
  match dict_get answer_json "query_description" with
  | Some d =>
      if Py.truthy d
      then "## Query Description" ++ NL ++ NL ++ PyRepr.str d ++ NL ++ NL
      else ""
  | None => ""
  end.

(** Lines 150-165: header, separator and the row lines. *)
Definition plain_table (cv data : pyval) : res string :=
  cols ← Py.iter cv;
  names ← mapM_res (fun col => Py.getitem col "name") cols;
  joined ← Py.join " | " names;
  let header := "| " ++ joined ++ " |" in
  let separator := "|" ++ PyStr.join "|" (map (fun _ => "---") cols) ++ "|" in
  da ← Py.getitem data "data_array";
  rows ← Py.iter da;
  lines ← mapM_res (plain_row cols) rows;
  Ok (header ++ NL ++ separator ++ NL ++ String.concat "" lines).

Definition process_query_results (answer_json : pydict) : res string :=
  let response := plain_description answer_json in
  match dict_get answer_json "columns", dict_get answer_json "data" with
  | Some columns, Some data =>
      let response := response ++ "## Query Results" ++ NL ++ NL in
      match columns with
      | PDict c =>
          match dict_get c "columns" with
          | Some cv => t ← plain_table cv data; Ok (response ++ t)
          | None =>
              Ok (response ++ "Unexpected column format: " ++ PyRepr.str columns ++ NL ++ NL)
          end
      | _ => Ok (response ++ "Unexpected column format: " ++ PyRepr.str columns ++ NL ++ NL)
      end
  | _, _ =>
      match dict_get answer_json "message" with
      | Some msg => Ok (response ++ PyRepr.str msg ++ NL ++ NL)
      | None => Ok (response ++ "No data available." ++ NL ++ NL)
      end
  end.

(** *** [process_for_slack] (blocks) *)

Definition section (text : pyval) : pyval :=
  PDict [("type", PStr "section");
         ("text", PDict [("type", PStr "mrkdwn"); ("text", text)])].

Definition divider : pyval := PDict [("type", PStr "divider")].

(** Lines 183-193 *)
Definition slack_description (answer_json : pydict) : list pyval :=
  match dict_get answer_json "query_description" with
  | Some d =>
      if Py.truthy d
      then [section (PStr ("*Query Description:*" ++ NL ++ PyRepr.str d)); divider]
      else []
  | None => []
  end.

(** Lines 217-224: one cell [value] under the column [col]. *)
Definition slack_cell (value col : pyval) : res string :=
  match value with
  | PNone => Ok "NULL"
  | _ =>
      t ← Py.getitem col "type_name";
      if Py.among t decimal_tags then
        f ← Py.to_float value; Ok (PyFmt.format_float_comma_2f f)
      else
        t' ← Py.getitem col "type_name";
        if Py.among t' integer_tags then
          z ← Py.to_int value; Ok (PyFmt.format_int_comma z)
        else Ok (PyRepr.str value)
  end.

(** [col_widths[i]] *)
Definition width_at (col_widths : list nat) (i : nat) : res nat :=
  match col_widths !! i with
  | Some w => Ok w
  | None => Raise IndexError
  end.

(** Lines 215-228: the cells of one row from index [i] on; the widths are
    updated as the cells are formatted. *)
Fixpoint slack_cells (cv : pyval) (i : nat) (values : list pyval) (col_widths : list nat)
  : res (list nat * list string) :=
  match values with
  | [] => Ok (col_widths, [])
  | value :: rest =>
      col ← Py.getitem_int cv i;
      formatted_value ← slack_cell value col;
      w ← width_at col_widths i;
      r ← slack_cells cv (S i) rest
            (<[i := Nat.max w (String.length formatted_value)]> col_widths);
      Ok (fst r, formatted_value :: snd r)
  end.

(** Lines 213-229 *)
Fixpoint slack_rows (cv : pyval) (rows : list pyval) (col_widths : list nat)
  : res (list nat * list (list string)) :=
  match rows with
  | [] => Ok (col_widths, [])
  | row_data :: rest =>
      values ← Py.iter row_data;
      r ← slack_cells cv 0 values col_widths;
      r' ← slack_rows cv rest (fst r);
      Ok (fst r', snd r :: snd r')
  end.

(** [v.ljust(col_widths[i])] for the items [v] from index [i] on. *)
Fixpoint pad_cells (col_widths : list nat) (i : nat) (items : list pyval) : res (list string) :=
  match items with
  | [] => Ok []
  | v :: rest =>
      s ← match v with
          | PStr s => w ← width_at col_widths i; Ok (PyStr.ljust s w)
          | _ => Raise AttributeError
          end;
      ss ← pad_cells col_widths (S i) rest;
      Ok (s :: ss)
  end.

(** Lines 240-244 *)
Definition slack_line (col_widths : list nat) (row : list string) : res string :=
  cells ← pad_cells col_widths 0 (map PStr row);
  Ok (PyStr.join " | " cells ++ NL).

(** Lines 209-244: the whole table as text. *)
Definition slack_table (cv data : pyval) : res string :=
  cols ← Py.iter cv;
  header_names ← mapM_res (fun col => Py.getitem col "name") cols;
  col_widths ← mapM_res Py.len header_names;
  da ← Py.getitem data "data_array";
  rows ← Py.iter da;
  r ← slack_rows cv rows col_widths;
  let col_widths := fst r in
  let formatted_rows := snd r in
  header_cells ← pad_cells col_widths 0 header_names;
  let header_str := PyStr.join " | " header_cells in
  let separator_str := PyStr.join "-+-" (map (PyStr.repeat_char "-") col_widths) in
  lines ← mapM_res (slack_line col_widths) formatted_rows;
  Ok (header_str ++ NL ++ separator_str ++ NL ++ String.concat "" lines).

Definition max_chars : nat := 2950.

(** Lines 248-251 *)
Definition truncate (table_str : string) : string :=
  PyStr.take max_chars table_str
  ++ (if max_chars <? String.length table_str then "..." else "").

Definition code_block (text : string) : pyval := section (PStr ("```" ++ text ++ "```")).

Definition unexpected_block : pyval := section (PStr "Unexpected data format received.").

Definition process_for_slack (answer_json : pydict) : res (list pyval) :=
  let blocks := slack_description answer_json in
  match dict_get answer_json "columns", dict_get answer_json "data" with
  | Some columns, Some data =>
      match columns with
      | PDict c =>
          match dict_get c "columns" with
          | Some cv =>
              has_rows ← Py.contains "data_array" data;
              if (has_rows : bool) then
                table_str ← slack_table cv data;
                Ok (blocks ++ [section (PStr "*Query Results:*");
                               code_block (truncate table_str)])%list
              else Ok (blocks ++ [unexpected_block])%list
          | None => Ok (blocks ++ [unexpected_block])%list
          end
      | _ => Ok (blocks ++ [unexpected_block])%list
      end
  | _, _ =>
      match dict_get answer_json "message" with
      | Some msg => Ok (blocks ++ [section msg])%list
      | None => Ok (blocks ++ [section (PStr "No data available.")])%list
      end
  end.

(** ** The orchestrator [ask_genie] *)

(** What the code reads of the objects the Genie client returns. *)
Record AttachmentQuery := { description : option string }.
Record AttachmentText := { text_content : option string }.
Record GenieAttachment := {
  query : option AttachmentQuery;
  text : option AttachmentText }.
Record GenieMessage := {
  conversation_id : string;
  id : string;
  content : string;
  query_result : option unit;
  attachments : option (list GenieAttachment) }.
Record StatementRef := { statement_id : string }.
Record QueryResult := { statement_response : option StatementRef }.
(** [manifest_schema] is [results.manifest.schema.as_dict()] and
    [result_data] is [results.result.as_dict()]; [None] stands for a missing
    [manifest], [schema] or [result], on which the attribute access fails. *)
Record StatementResponse := {
  manifest_schema : option pydict;
  result_data : option pydict }.

(** The calls made to the back end, in the order they are made. *)
Inductive call : Type :=
| StartConversation (space_id question : string)
| CreateMessage (space_id conv_id question : string)
| GetMessageQueryResult (space_id conv_id message_id : string)
| GetMessage (space_id conv_id message_id : string)
| GetStatement (stmt_id : string).

(** [genie_api] and [workspace_client.statement_execution]: each call reads
    and changes the state of the world and returns or raises. *)
Record GenieAPI (World : Type) := {
  start_conversation_and_wait : string -> string -> World -> res GenieMessage * World;
  create_message_and_wait : string -> string -> string -> World -> res GenieMessage * World;
  get_message_query_result : string -> string -> string -> World -> res QueryResult * World;
  get_message : string -> string -> string -> World -> res GenieMessage * World;
  get_statement : string -> World -> res StatementResponse * World }.
Arguments start_conversation_and_wait {World}.
Arguments create_message_and_wait {World}.
Arguments get_message_query_result {World}.
Arguments get_message {World}.
Arguments get_statement {World}.

Definition error_payload : pydict :=
  [("error", PStr "An error occurred while processing your request.")].

Section Orchestrator.
Context {World : Type} (genie_api : GenieAPI World).

(** The state outside the function: the world behind the back end, the
    calls made so far and the errors logged so far. *)
Record env := {
  world : World;
  calls : list call;
  logged : list exn }.

(** A step of [ask_genie] also reads and writes the local variable
    [conversation_id]. *)
Definition M (A : Type) : Type := option string * env -> res A * (option string * env).

Definition ret {A} (a : A) : M A := fun st => (Ok a, st).
Definition bind {A B} (c : M A) (k : A -> M B) : M B :=
  fun st => match c st with
            | (Ok a, st') => k a st'
            | (Raise e, st') => (Raise e, st')
            end.
Definition lift {A} (r : res A) : M A := fun st => (r, st).

Notation "'let*' x := c 'in' k" := (bind c (fun x => k))
  (at level 10, x name, c at level 100, k at level 200, only parsing).

(** One blocking call run through [loop.run_in_executor]. *)
Definition invoke {A} (c : call) (f : World -> res A * World) : M A :=
  fun st =>
    let '(r, w) := f (world (snd st)) in
    (r, (fst st, {| world := w; calls := (calls (snd st) ++ [c])%list;
                    logged := logged (snd st) |})).

Definition set_conversation_id (c : option string) : M unit :=
  fun st => (Ok tt, (c, snd st)).

Definition get_conversation_id : M (option string) :=
  fun st => (Ok (fst st), st).

(** Lines 72-84 *)
Definition initial (question space_id : string) : M GenieMessage :=
  let* c := get_conversation_id in
  match c with
  | None =>
      let* initial_message :=
        invoke (StartConversation space_id question)
               (start_conversation_and_wait genie_api space_id question) in
      let* done_ := set_conversation_id (Some (conversation_id initial_message)) in
      ret initial_message
  | Some cid =>
      invoke (CreateMessage space_id cid question)
             (create_message_and_wait genie_api space_id cid question)
  end.

(** Lines 111-115: the description of the first attachment with one. *)
Fixpoint first_description (l : list GenieAttachment) : string :=
  match l with
  | [] => ""
  | a :: l' =>
      match query a with
      | Some q =>
          match description q with
          | Some d => if String.eqb d "" then first_description l' else d
          | None => first_description l'
          end
      | None => first_description l'
      end
  end.

(** Lines 126-130: the text of the first attachment with one. *)
Fixpoint first_text (l : list GenieAttachment) : option string :=
  match l with
  | [] => None
  | a :: l' =>
      match text a with
      | Some t =>
          match text_content t with
          | Some c => if String.eqb c "" then first_text l' else Some c
          | None => first_text l'
          end
      | None => first_text l'
      end
  end.

(** Lines 125-132 *)
Definition message_payload (message_content : GenieMessage) : pydict :=
  match attachments message_content with
  | Some l =>
      match first_text l with
      | Some c => [("message", PStr c)]
      | None => [("message", PStr (content message_content))]
      end
  | None => [("message", PStr (content message_content))]
  end.

(** Lines 105-123 *)
Definition tabular_payload (message_content : GenieMessage) (sr : StatementRef) : M pydict :=
  let* results := invoke (GetStatement (statement_id sr))
                    (get_statement genie_api (statement_id sr)) in
  let* l := lift (match attachments message_content with
             | Some l => Ok l
             | None => Raise TypeError
             end) in
  let query_description := first_description l in
  let* columns := lift (match manifest_schema results with
                   | Some d => Ok d
                   | None => Raise AttributeError
                   end) in
  let* data := lift (match result_data results with
                | Some d => Ok d
                | None => Raise AttributeError
                end) in
  ret [("columns", PDict columns); ("data", PDict data);
       ("query_description", PStr query_description)].

(** Lines 86-94 *)
Definition fetch_query_result (space_id : string) (initial_message : GenieMessage)
  : M (option QueryResult) :=
  match query_result initial_message with
  | Some _ =>
      let* r :=
        invoke (GetMessageQueryResult space_id (conversation_id initial_message)
                                      (id initial_message))
               (get_message_query_result genie_api space_id
                  (conversation_id initial_message) (id initial_message)) in
      ret (Some r)
  | None => ret None
  end.

(** Lines 86-132: everything after the first call. *)
Definition answer (space_id : string) (initial_message : GenieMessage) : M pydict :=
  let* query_result := fetch_query_result space_id initial_message in
  let* message_content :=
    invoke (GetMessage space_id (conversation_id initial_message) (id initial_message))
           (get_message genie_api space_id (conversation_id initial_message)
              (id initial_message)) in
  match query_result with
  | Some qr =>
      match statement_response qr with
      | Some sr => tabular_payload message_content sr
      | None => ret (message_payload message_content)
      end
  | None => ret (message_payload message_content)
  end.

(** The body of the [try]. *)
Definition ask_genie_try (question space_id : string) : M pydict :=
  let* initial_message := initial question space_id in
  answer space_id initial_message.

(** [ask_genie]: the [except] clause logs the exception and answers with
    the fixed payload and the current value of [conversation_id].  The
    text that [json.dumps] writes is read back by [json.loads] in the
    handler; the payload stands for both. *)
Definition ask_genie (question space_id : string) (conversation_id : option string)
    (st : env) : (pydict * option string) * env :=
  match ask_genie_try question space_id (conversation_id, st) with
  | (Ok payload, (conversation_id, st')) => ((payload, conversation_id), st')
  | (Raise e, (conversation_id, st')) =>
      ((error_payload, conversation_id),
       {| world := world st'; calls := calls st';
          logged := (logged st' ++ [e])%list |})
  end.

End Orchestrator.

Arguments world {World}.
Arguments calls {World}.
Arguments logged {World}.

(** ** The message handler [MyBot.on_message_activity] *)

(** What the handler reads of the inbound activity. *)
Record Activity := {
  activity_text : string;
  from_id : string;
  channel_id : string }.

(** What [turn_context.send_activity] is given. *)
Inductive reply : Type :=
| ReplyText (s : string)
| ReplyAttachments (l : list pyval).

Definition generic_failure : string := "An error occurred while processing your request.".

(** The state of the bot is [self.conversation_ids]: a [dict] from user id
    to the conversation id stored for the user, which may be [None]. *)
Record MyBot := { conversation_ids : gmap string (option string) }.

(** [self.conversation_ids.get(user_id)] *)
Definition registry_get (self : MyBot) (user_id : string) : option string :=
  match conversation_ids self !! user_id with
  | Some c => c
  | None => None
  end.

Section Handler.
Context {World : Type} (genie_api : GenieAPI World) (DATABRICKS_SPACE_ID : string).

(** Lines 312-327, with the [except Exception] clause of lines 334-338:
    the reply for an answer on a channel, and the exception logged if
    rendering raised. *)
Definition render (channel : string) (answer_json : pydict) : reply * list exn :=
  if String.eqb channel "slack" then
    match process_for_slack answer_json with
    | Ok attachments => (ReplyAttachments attachments, [])
    | Raise e => (ReplyText generic_failure, [e])
    end
  else
    match process_query_results answer_json with
    | Ok response_text => (ReplyText response_text, [])
    | Raise e => (ReplyText generic_failure, [e])
    end.

(** One inbound message: the bot and the outside state after it, and the
    reply sent. *)
Record turn := {
  self_after : MyBot;
  env_after : env (World := World);
  sent : reply }.

Definition on_message_activity (self : MyBot) (activity : Activity) (st : env) : turn :=
  let question := activity_text activity in
  let user_id := from_id activity in
  let conversation_id := registry_get self user_id in
  let '((answer_json, new_conversation_id), st1) :=
    ask_genie genie_api question DATABRICKS_SPACE_ID conversation_id st in
  let self' :=
    {| conversation_ids := <[user_id := new_conversation_id]> (conversation_ids self) |} in
  let '(r, errs) := render (channel_id activity) answer_json in
  {| self_after := self';
     env_after := {| world := world st1; calls := calls st1;
                     logged := (logged st1 ++ errs)%list |};
     sent := r |}.

End Handler.

Arguments self_after {World}.
Arguments env_after {World}.
Arguments sent {World}.

(** ** A back end to run examples on

    The world is the number of conversations started so far; a new
    conversation is numbered after it.  A question with a question mark in
    it is answered by a query, any other by a text attachment; the question
    [boom] makes the first call fail, the question [late boom] makes the
    later call for the message fail. *)
Module Demo.

Definition thread_name (n : nat) : string := "T" ++ PyFmt.digits (N.of_nat n).

Definition reply_to (conv question : string) : GenieMessage :=
  {| conversation_id := conv;
     id := if String.eqb question "late boom" then "m0" else "m1";
     content := question;
     query_result := if PyStr.contains "?" question then Some tt else None;
     attachments :=
       Some [ {| query := Some {| description := Some "Orders per region" |};
                 text := None |};
              {| query := None;
                 text := Some {| text_content := Some ("You said " ++ question) |} |} ] |}.

Definition schema : pydict :=
  [("column_count", PInt 2);
   ("columns", PList [PDict [("name", PStr "region"); ("type_name", PStr "STRING")];
                      PDict [("name", PStr "total"); ("type_name", PStr "DOUBLE")]])].

Definition rows : pydict :=
  [("data_array", PList [PList [PStr "north"; PStr "1234567.5"];
                         PList [PStr "south"; PNone]])].

Definition api : GenieAPI nat :=
  {| start_conversation_and_wait := fun _ question n =>
       if String.eqb question "boom" then (Raise (BackendError "connection reset"), n)
       else (Ok (reply_to (thread_name (S n)) question), S n);
     create_message_and_wait := fun _ conv question n =>
       if String.eqb question "boom" then (Raise (BackendError "connection reset"), n)
       else (Ok (reply_to conv question), n);
     get_message_query_result := fun _ _ _ n =>
       (Ok {| statement_response := Some {| statement_id := "s1" |} |}, n);
     get_message := fun _ conv message_id n =>
       if String.eqb message_id "m0" then (Raise (BackendError "timed out"), n)
       else (Ok (reply_to conv "done"), n);
     get_statement := fun stmt n =>
       if String.eqb stmt "s1"
       then (Ok {| manifest_schema := Some schema; result_data := Some rows |}, n)
       else (Raise (BackendError "no such statement"), n) |}.

Definition start : env (World := nat) := {| world := 0; calls := []; logged := [] |}.

Definition fresh : MyBot := {| conversation_ids := ∅ |}.

Definition msg (user question channel : string) : Activity :=
  {| activity_text := question; from_id := user; channel_id := channel |}.

End Demo.

(** ** Example payloads *)

Definition column (name tag : string) : pyval :=
  PDict [("name", PStr name); ("type_name", PStr tag)].

(** The float 1234567.5, that is 5302427037204480 * 2^-32. *)
Definition d_1234567_5 : spec_float := S754_finite false 5302427037204480 (-32).

Definition table_payload (cols rows : list pyval) : pydict :=
  [("columns", PDict [("columns", PList cols)]);
   ("data", PDict [("data_array", PList rows)])].

(** Two columns and a description, as the back end sends them. *)
Definition orders_payload : pydict :=
  [("columns", PDict Demo.schema); ("data", PDict Demo.rows);
   ("query_description", PStr "Orders per region")].

(** One column whose name is 3000 characters long, and no rows. *)
Definition wide_payload : pydict :=
  table_payload [column (PyStr.repeat_char "a" 3000) "STRING"] [].

(** ** Terms of the properties *)

(** [isinstance(columns, dict) and "columns" in columns] *)
Definition has_columns_key (columns : pyval) : bool :=
  match columns with
  | PDict c => dict_has c "columns"
  | _ => false
  end.

(** A row fits the columns when it is a list with one value per column. *)
Definition row_fits (cols : list pyval) (row : pyval) : bool :=
  match row with
  | PList values => length values =? length cols
  | _ => false
  end.

(** Every column has a name that is a [str]. *)
Definition names_are_text (cols : list pyval) : bool :=
  forallb (fun col => match Py.getitem col "name" with
                      | Ok (PStr _) => true
                      | _ => false
                      end) cols.

(** Every cell can be formatted under its column. *)
Definition cells_convert (cols rows : list pyval) : bool :=
  forallb (fun row => is_ok (plain_cells row cols)) rows.

(** A cell agrees with its column when it is [None], or stands under a
    tag that is not numeric, or is a number, or text that reads as a
    number, of the kind of the tag. *)
Definition cell_typed (value col : pyval) : bool :=
  match value with
  | PNone => true
  | _ =>
      match Py.getitem col "type_name" with
      | Raise _ => false
      | Ok t =>
          if Py.among t decimal_tags then
            match value with
            | PFloat _ | PBool _ => true
            | PStr s => is_ok (PyParse.float_of_string s)
            | _ => false
            end
          else if Py.among t integer_tags then
            match value with
            | PInt _ | PBool _ | PFloat (S754_zero _) | PFloat (S754_finite _ _ _) => true
            | PStr s => is_ok (PyParse.int_of_string s)
            | _ => false
            end
          else true
      end
  end.

Definition rows_typed (cols rows : list pyval) : bool :=
  forallb (fun row => match row with
                      | PList values =>
                          forallb (fun vc => cell_typed (fst vc) (snd vc))
                                  (combine values cols)
                      | _ => false
                      end) rows.

(** The table of [process_query_results] for the column names [names] and
    the formatted cells [cells]. *)
Definition plain_text (names : list string) (cells : list (list string)) : string :=
  "| " ++ PyStr.join " | " names ++ " |" ++ NL
  ++ "|" ++ PyStr.join "|" (map (fun _ => "---") names) ++ "|" ++ NL
  ++ String.concat "" (map plain_line cells).

(** The widths after the cells of one row were seen, from column [i] on:
    each width is raised to the length of the cell under it. *)
Fixpoint bump (i : nat) (cells : list string) (widths : list nat) : list nat :=
  match cells with
  | [] => widths
  | c :: cs => bump (S i) cs (alter (fun w => Nat.max w (String.length c)) i widths)
  end.

(** The widths after all rows were seen. *)
Definition bump_rows (cells : list (list string)) (widths : list nat) : list nat :=
  fold_left (fun w row => bump 0 row w) cells widths.

(** The width of a column in the words of the specification: the larger
    of the width of the header and the width of the widest formatted cell
    of the column. *)
Definition widest (lens : list nat) : nat := fold_right Nat.max 0 lens.

Definition column_cells (j : nat) (cells : list (list string)) : list string :=
  map (fun row => nth j row "") cells.

Definition spec_width (j : nat) (name : string) (cells : list (list string)) : nat :=
  Nat.max (String.length name) (widest (map String.length (column_cells j cells))).

Definition spec_widths (names : list string) (cells : list (list string)) : list nat :=
  imap (fun j name => spec_width j name cells) names.

Definition pad_row (widths : list nat) (row : list string) : list string :=
  zip_with PyStr.ljust row widths.

(** The table of [process_for_slack] for the column names [names], the
    formatted cells [cells] and the column widths [widths]. *)
Definition slack_text (names : list string) (cells : list (list string))
    (widths : list nat) : string :=
  PyStr.join " | " (pad_row widths names) ++ NL
  ++ PyStr.join "-+-" (map (PyStr.repeat_char "-") widths) ++ NL
  ++ String.concat "" (map (fun row => PyStr.join " | " (pad_row widths row) ++ NL) cells).

(** The text [s] has no character [c] in it. *)
Fixpoint free_of (c : ascii) (s : string) : bool :=
  match s with
  | EmptyString => true
  | String a s' => negb (Ascii.eqb a c) && free_of c s'
  end.

(** The lines of a text: the pieces that a newline ends, and a last piece
    without one if it is not empty. *)
Fixpoint text_lines (t : string) : list string :=
  match t with
  | EmptyString => []
  | String a t' =>
      if Ascii.eqb a "010" then "" :: text_lines t'
      else match text_lines t' with
           | l :: ls => String a l :: ls
           | [] => [String a ""]
           end
  end.

(** The pieces of a text between the occurrences of the character [c]. *)
Fixpoint split_char (c : ascii) (s : string) : list string :=
  match s with
  | EmptyString => [""]
  | String a s' =>
      if Ascii.eqb a c then "" :: split_char c s'
      else match split_char c s' with
           | p :: ps => String a p :: ps
           | [] => [String a ""]
           end
  end.

(** The cells of a row of a markdown table: the pieces between its bars,
    without what stands before the first bar and after the last. *)
Definition md_cells (line : string) : list string :=
  match split_char "|" line with
  | _ :: rest => removelast rest
  | [] => []
  end.

(** A name or a cell that leaves the rows and the cells of a markdown
    table as they are: it has no bar and no newline in it. *)
Definition md_safe (s : string) : bool := free_of "|" s && free_of "010" s.

(** A cell as it stands between two bars. *)
Definition md_pad (cell : string) : string := " " ++ cell ++ " ".

Definition is_start (c : call) : bool :=
  match c with
  | StartConversation _ _ => true
  | _ => false
  end.

Section SessionTerms.
Context {World : Type} (genie_api : GenieAPI World) (space_id : string).

(** The conversation id known when [ask_genie] leaves: the one given, or
    else the one of the conversation just started, if the start
    succeeded. *)
Definition resolved_id (question : string) (given : option string)
    (st : env (World := World)) : option string :=
  match given with
  | Some c => Some c
  | None =>
      match fst (start_conversation_and_wait genie_api space_id question (world st)) with
      | Ok initial_message => Some (conversation_id initial_message)
      | Raise _ => None
      end
  end.

(** The first call of a run: a follow-up on the conversation given, or a
    fresh start. *)
Definition first_call (question : string) (given : option string) : call :=
  match given with
  | Some c => CreateMessage space_id c question
  | None => StartConversation space_id question
  end.

(** A computation is quiet when it leaves the variable [conversation_id]
    and the log alone and starts no conversation. *)
Definition quiet {A : Type} (c : M A) : Prop :=
  forall (cv : option string) (st : env (World := World)),
    fst (snd (c (cv, st))) = cv
    /\ logged (snd (snd (c (cv, st)))) = logged st
    /\ exists rest,
        calls (snd (snd (c (cv, st)))) = (calls st ++ rest)%list
        /\ existsb is_start rest = false.

End SessionTerms.

(** ** The rest of the bot *)

(** *** [MyBot.on_members_added_activity] *)

Record ChannelAccount := { account_id : string }.

Definition welcome : string := "Welcome to the Databricks Genie Bot!".

(** Lines 343-345: the replies sent for the members added to a
    conversation, where [recipient] is the recipient of the activity, the
    bot itself. *)
Fixpoint on_members_added_activity (members_added : list ChannelAccount)
    (recipient : ChannelAccount) : list reply :=
  match members_added with
  | [] => []
  | member :: rest =>
      if String.eqb (account_id member) (account_id recipient)
      then on_members_added_activity rest recipient
      else ReplyText welcome :: on_members_added_activity rest recipient
  end.

(** *** The endpoint [messages] *)

(** What the endpoint reads of the request: the two headers, absent or
    present, and what [await req.json()] gives. *)
Record Request := {
  content_type : option string;
  authorization : option string;
  json_body : res pyval }.

(** What [ADAPTER.process_activity] answers when it answers something. *)
Record InvokeResponse := {
  invoke_status : nat;
  invoke_body : pyval }.

Inductive response : Type :=
| PlainResponse (status : nat)
| JsonResponse (data : pyval) (status : nat).

(** What one request leaves behind: the response or the exception, the
    world after it, the activities handed to the adapter with their
    authorization header, and the errors logged. *)
Record served (World A : Type) := {
  answered : res response;
  world_after : World;
  handed : list (A * string);
  errors : list exn }.
Arguments answered {World A}.
Arguments world_after {World A}.
Arguments handed {World A}.
Arguments errors {World A}.

Section Endpoint.
Context {World A : Type}.
(** [Activity().deserialize] and [ADAPTER.process_activity] with the bot's
    [on_turn] behind it. *)
Context (deserialize : pyval -> res A)
        (process_activity : A -> string -> World -> res (option InvokeResponse) * World).

(** Lines 351-367 *)
Definition messages (req : Request) (w : World) : served World A :=
  match content_type req with
  | None => {| answered := Raise KeyError; world_after := w; handed := []; errors := [] |}
  | Some ct =>
      if PyStr.contains "application/json" ct then
        match json_body req with
        | Raise e => {| answered := Raise e; world_after := w; handed := []; errors := [] |}
        | Ok body =>
            match deserialize body with
            | Raise e =>
                {| answered := Raise e; world_after := w; handed := []; errors := [] |}
            | Ok activity =>
                let auth_header :=
                  match authorization req with Some a => a | None => "" end in
                match process_activity activity auth_header w with
                | (Ok (Some r), w') =>
                    {| answered := Ok (JsonResponse (invoke_body r) (invoke_status r));
                       world_after := w'; handed := [(activity, auth_header)];
                       errors := [] |}
                | (Ok None, w') =>
                    {| answered := Ok (PlainResponse 201);
                       world_after := w'; handed := [(activity, auth_header)];
                       errors := [] |}
                | (Raise e, w') =>
                    {| answered := Ok (PlainResponse 500);
                       world_after := w'; handed := [(activity, auth_header)];
                       errors := [e] |}
                end
            end
        end
      else {| answered := Ok (PlainResponse 415); world_after := w; handed := [];
              errors := [] |}
  end.

End Endpoint.

(** *** Messages one after the other *)

Section Turns.
Context {World : Type} (genie_api : GenieAPI World) (DATABRICKS_SPACE_ID : string).

(** The bot, the outside state and the replies after the messages
    [activities] were handled in their order. *)
Fixpoint turns (self : MyBot) (activities : list Activity) (st : env (World := World))
  : MyBot * env (World := World) * list reply :=
  match activities with
  | [] => (self, st, [])
  | activity :: rest =>
      let t := on_message_activity genie_api DATABRICKS_SPACE_ID self activity st in
      let '(self', st', replies) := turns (self_after t) rest (env_after t) in
      (self', st', sent t :: replies)
  end.

End Turns.

(** *** A back end whose query has no rows

    As [Demo.api], but the result of the statement comes without the key
    [data_array], as the result of a query without rows does. *)
Module NoRows.

Definition api : GenieAPI nat :=
  {| start_conversation_and_wait := start_conversation_and_wait Demo.api;
     create_message_and_wait := create_message_and_wait Demo.api;
     get_message_query_result := get_message_query_result Demo.api;
     get_message := get_message Demo.api;
     get_statement := fun _ n =>
       (Ok {| manifest_schema := Some Demo.schema;
              result_data := Some [("row_count", PInt 0)] |}, n) |}.

End NoRows.

(** *** Terms of the further properties *)

(** The first call of a run and what it gives. *)
Definition first_reply {World : Type} (genie_api : GenieAPI World) (space_id question : string)
    (given : option string) (w : World) : res GenieMessage * World :=
  match given with
  | Some c => create_message_and_wait genie_api space_id c question w
  | None => start_conversation_and_wait genie_api space_id question w
  end.

(** The text of a text answer: the content of the first text attachment
    that has some, or else the content of the message. *)
Definition answer_text (message_content : GenieMessage) : string :=
  match attachments message_content with
  | Some l =>
      match first_text l with
      | Some c => c
      | None => content message_content
      end
  | None => content message_content
  end.

(** The status of a response. *)
Definition status_of (r : response) : nat :=
  match r with
  | PlainResponse status => status
  | JsonResponse _ status => status
  end.

(** The three shapes of a payload. *)
Definition payload_shape (payload : pydict) : Prop :=
  payload = error_payload
  \/ (exists t, payload = [("message", PStr t)])
  \/ (exists columns data d,
        payload = [("columns", PDict columns); ("data", PDict data);
                   ("query_description", PStr d)]).

(** The length of every line of a table with the column widths [widths]. *)
Definition line_width (widths : list nat) : nat :=
  list_sum widths + 3 * (length widths - 1).

(** * Properties *)

(** ** The built-in operations on some values *)

(** The built-in operations on some values. *)
Example float_texts :
  map PyRepr.repr_float
      [S754_finite false 5302427037204480 (-32); S754_finite false 7205759403792794 (-56);
       S754_finite false 5404319552844596 (-54); S754_finite false 5000000000000000 1;
       S754_finite false 5902958103587057 (-69); S754_finite true 1 (-1074);
       S754_zero true; S754_infinity false]
  = ["1234567.5"; "0.1"; "0.30000000000000004"; "1e+16"; "1e-05"; "-5e-324"; "-0.0"; "inf"].
Proof. vm_compute. reflexivity. Qed.

Example float_readings :
  map PyParse.float_of_string ["0.1"; " 1_000.5 "; "1e22"; "-Infinity"; "1_.5"; "abc"]
  = [Ok (S754_finite false 7205759403792794 (-56));
     Ok (S754_finite false 8800491068719104 (-43));
     Ok (S754_finite false 4768371582031250 21);
     Ok (S754_infinity true); Raise ValueError; Raise ValueError].
Proof. vm_compute. reflexivity. Qed.

Example int_readings :
  map PyParse.int_of_string [" 12 "; "1_000"; "-42"; "007"; "12.0"; "1__0"; ""]
  = [Ok 12%Z; Ok 1000%Z; Ok (-42)%Z; Ok 7%Z; Raise ValueError; Raise ValueError;
     Raise ValueError].
Proof. vm_compute. reflexivity. Qed.

Example number_texts :
  PyFmt.format_int_comma (-1234567) = "-1,234,567"
  /\ PyFmt.format_int_comma 999 = "999"
  /\ PyFmt.format_float_comma_2f (S754_finite false 4503599627370496 (-55)) = "0.12"
  /\ PyFmt.format_float_comma_2f (S754_finite false 6755399441055744 (-54)) = "0.38"
  /\ PyRepr.str (PList [PInt 1; PStr "a'b"; PNone; PBool true; PDict [("k", PList [])]])
     = String "[" (String "1" (String "," (String " "
         (String "034" (String "a" (String "'" (String "b" (String "034"
         ", None, True, {'k': []}]")))))))).
Proof. repeat split; vm_compute; reflexivity. Qed.

(** ** Facts about strings *)

Lemma app_cons (c : ascii) (s t : string) : String c s ++ t = String c (s ++ t).
Proof. reflexivity. Qed.

Lemma length_app (s t : string) :
  String.length (s ++ t) = String.length s + String.length t.
Proof.
  induction s as [|c s IH]; [reflexivity|].
  rewrite app_cons. simpl. now rewrite IH.
Qed.

Lemma app_empty_r (s : string) : s ++ "" = s.
Proof.
  induction s as [|c s IH]; [reflexivity|].
  rewrite app_cons. now rewrite IH.
Qed.

Lemma app_assoc_str (s t u : string) : (s ++ t) ++ u = s ++ t ++ u.
Proof.
  induction s as [|c s IH]; [reflexivity|].
  rewrite !app_cons. now rewrite IH.
Qed.

Lemma take_length (n : nat) (s : string) :
  String.length (PyStr.take n s) = Nat.min n (String.length s).
Proof.
  unfold PyStr.take. revert n.
  induction s as [|c s IH]; intros [|n]; simpl; try reflexivity.
  now rewrite IH.
Qed.

Lemma take_all (n : nat) (s : string) :
  String.length s <= n -> PyStr.take n s = s.
Proof.
  unfold PyStr.take. revert n.
  induction s as [|c s IH]; intros [|n] H; simpl in *; try reflexivity; try lia.
  rewrite IH; [reflexivity | lia].
Qed.

Lemma repeat_char_length (c : ascii) (n : nat) :
  String.length (PyStr.repeat_char c n) = n.
Proof. induction n as [|n IH]; simpl; [reflexivity | now rewrite IH]. Qed.

Lemma ljust_length (s : string) (w : nat) :
  String.length (PyStr.ljust s w) = Nat.max (String.length s) w.
Proof. unfold PyStr.ljust. rewrite length_app, repeat_char_length. lia. Qed.

Lemma concat_empty_cons (x : string) (l : list string) :
  String.concat "" (x :: l) = x ++ String.concat "" l.
Proof. destruct l; simpl; [now rewrite app_empty_r | reflexivity]. Qed.

(** *** Lines and cells of a text *)

Lemma free_of_app (c : ascii) (s t : string) :
  free_of c (s ++ t) = free_of c s && free_of c t.
Proof.
  induction s as [|a s IH]; [reflexivity|].
  rewrite app_cons. simpl. rewrite IH. now rewrite andb_assoc.
Qed.

Lemma text_lines_line (l t : string) :
  free_of "010" l = true -> text_lines (l ++ NL ++ t) = l :: text_lines t.
Proof.
  induction l as [|a l IH]; intros H.
  - reflexivity.
  - simpl in H. apply andb_prop in H as [Ha Hl].
    rewrite app_cons. cbn [text_lines].
    destruct (Ascii.eqb a "010"); [discriminate|].
    now rewrite IH.
Qed.

Lemma text_lines_concat (lines : list string) :
  Forall (fun l => free_of "010" l = true) lines ->
  text_lines (String.concat "" (map (fun l => l ++ NL) lines)) = lines.
Proof.
  induction 1 as [|l lines Hl _ IH]; [reflexivity|].
  cbn [map]. rewrite concat_empty_cons, app_assoc_str, text_lines_line by exact Hl.
  now rewrite IH.
Qed.

Lemma split_char_piece (c : ascii) (p t : string) :
  free_of c p = true -> split_char c (p ++ String c t) = p :: split_char c t.
Proof.
  induction p as [|a p IH]; intros H.
  - change ("" ++ String c t) with (String c t). cbn [split_char].
    now rewrite Ascii.eqb_refl.
  - simpl in H. apply andb_prop in H as [Ha Hp].
    rewrite app_cons. cbn [split_char].
    destruct (Ascii.eqb a c); [discriminate|]. now rewrite IH.
Qed.

Lemma split_char_join (c : ascii) (pieces : list string) :
  pieces <> [] ->
  Forall (fun p => free_of c p = true) pieces ->
  split_char c (String.concat (String c "") pieces ++ String c "")
  = (pieces ++ [""])%list.
Proof.
  intros Hne H. induction H as [|p pieces Hp Hrest IH]; [contradiction|].
  destruct pieces as [|q pieces].
  - cbn [String.concat app]. now rewrite split_char_piece.
  - change (String.concat (String c "") (p :: q :: pieces))
      with (p ++ String c "" ++ String.concat (String c "") (q :: pieces)).
    rewrite !app_assoc_str. rewrite app_cons.
    change ("" ++ String.concat (String c "") (q :: pieces) ++ String c "")
      with (String.concat (String c "") (q :: pieces) ++ String c "").
    rewrite split_char_piece by exact Hp. rewrite IH by discriminate. reflexivity.
Qed.

Lemma removelast_snoc {A : Type} (l : list A) (x : A) : removelast (l ++ [x]) = l.
Proof. apply removelast_last. Qed.

Lemma md_cells_row (pieces : list string) :
  pieces <> [] ->
  Forall (fun p => free_of "|" p = true) pieces ->
  md_cells ("|" ++ String.concat "|" pieces ++ "|") = pieces.
Proof.
  intros Hne H. unfold md_cells.
  change ("|" ++ String.concat "|" pieces ++ "|")
    with (String "|" (String.concat "|" pieces ++ "|")).
  cbn [split_char]. rewrite Ascii.eqb_refl at 1.
  rewrite (split_char_join "|" pieces Hne H). apply removelast_snoc.
Qed.

(** A row of a markdown table, as the renderer writes it and as its
    cells stand between the bars. *)
Lemma padded_join (cells : list string) :
  cells <> [] ->
  "| " ++ PyStr.join " | " cells ++ " |"
  = "|" ++ String.concat "|" (map md_pad cells) ++ "|".
Proof.
  intros Hne. unfold PyStr.join.
  change ("| " ++ String.concat " | " cells ++ " |")
    with (String "|" (" " ++ String.concat " | " cells ++ " |")).
  change ("|" ++ String.concat "|" (map md_pad cells) ++ "|")
    with (String "|" (String.concat "|" (map md_pad cells) ++ "|")).
  f_equal.
  induction cells as [|x [|y cells] IH]; [contradiction| |].
  - cbn [map String.concat]. unfold md_pad. now rewrite !app_assoc_str.
  - change (String.concat " | " (x :: y :: cells))
      with (x ++ " | " ++ String.concat " | " (y :: cells)).
    change (String.concat "|" (map md_pad (x :: y :: cells)))
      with (md_pad x ++ "|" ++ String.concat "|" (map md_pad (y :: cells))).
    rewrite !app_assoc_str. rewrite <- IH by discriminate.
    unfold md_pad. rewrite !app_assoc_str. reflexivity.
Qed.

Lemma free_of_join (c : ascii) (sep : string) (pieces : list string) :
  free_of c sep = true ->
  Forall (fun p => free_of c p = true) pieces ->
  free_of c (String.concat sep pieces) = true.
Proof.
  intros Hsep H. induction H as [|p pieces Hp _ IH]; [reflexivity|].
  destruct pieces as [|q pieces]; [exact Hp|].
  change (String.concat sep (p :: q :: pieces))
    with (p ++ sep ++ String.concat sep (q :: pieces)).
  now rewrite !free_of_app, Hp, Hsep, IH.
Qed.

Lemma free_of_repeat (c a : ascii) (n : nat) :
  Ascii.eqb a c = false -> free_of c (PyStr.repeat_char a n) = true.
Proof. intros H. induction n as [|n IH]; simpl; [reflexivity | now rewrite H, IH]. Qed.

Lemma forallb_Forall_true {A : Type} (f : A -> bool) (l : list A) :
  forallb f l = true -> Forall (fun a => f a = true) l.
Proof. intros H. apply Forall_forall. intros a Ha. apply list_elem_of_In in Ha.
  rewrite forallb_forall in H. now apply H. Qed.

Lemma md_safe_bar (s : string) : md_safe s = true -> free_of "|" (md_pad s) = true.
Proof.
  unfold md_safe, md_pad. intros H. apply andb_prop in H as [H _].
  now rewrite !free_of_app, H.
Qed.

Lemma row_text_one_line (row : list string) :
  forallb md_safe row = true ->
  free_of "010" ("| " ++ PyStr.join " | " row ++ " |") = true.
Proof.
  intros H. rewrite !free_of_app. unfold PyStr.join.
  rewrite free_of_join; [reflexivity | reflexivity |].
  eapply Forall_impl; [apply forallb_Forall_true, H|].
  intros s Hs. simpl in Hs. unfold md_safe in Hs. now apply andb_prop in Hs as [_ Hs].
Qed.

Lemma md_cells_text (row : list string) :
  row <> [] -> forallb md_safe row = true ->
  md_cells ("| " ++ PyStr.join " | " row ++ " |") = map md_pad row.
Proof.
  intros Hne H. rewrite padded_join by exact Hne. apply md_cells_row.
  - now destruct row.
  - apply Forall_map. eapply Forall_impl; [apply forallb_Forall_true, H|].
    intros s Hs. now apply md_safe_bar.
Qed.

(** ** Truncation of the table in a block (C3) *)

Lemma truncate_short (t : string) :
  String.length t <= max_chars -> truncate t = t.
Proof.
  intros H. unfold truncate.
  destruct (Nat.ltb_spec max_chars (String.length t)) as [Hlt|_]; [lia|].
  rewrite take_all by exact H. apply app_empty_r.
Qed.

Lemma truncate_long (t : string) :
  max_chars < String.length t ->
  truncate t = PyStr.take max_chars t ++ "..."
  /\ String.length (PyStr.take max_chars t) = max_chars
  /\ String.length (truncate t) = max_chars + 3.
Proof.
  intros H. unfold truncate.
  destruct (Nat.ltb_spec max_chars (String.length t)) as [_|Hle]; [|lia].
  assert (Hk : String.length (PyStr.take max_chars t) = max_chars)
    by (rewrite take_length; lia).
  repeat split; [exact Hk|].
  rewrite length_app, Hk. reflexivity.
Qed.

Lemma truncate_bound (t : string) : String.length (truncate t) <= max_chars + 3.
Proof.
  destruct (Nat.le_gt_cases (String.length t) max_chars) as [H|H].
  - rewrite truncate_short by exact H. lia.
  - destruct (truncate_long t H) as (_ & _ & ->). lia.
Qed.

(** C3: when the table branch is taken and the table text is
    [table_str], the last block holds [truncate table_str] between code
    fences.  A table of at most 2950 characters is passed whole, with no
    dots; of a longer one the first 2950 characters are kept and the three
    dots are put after them.  The table text that is kept is never longer
    than 2950 characters; with the dots and the fences the text of the
    block stays under 3000 characters. *)
Theorem table_truncation (answer_json c : pydict) (cv data : pyval) (table_str : string) :
  dict_get answer_json "columns" = Some (PDict c) ->
  dict_get c "columns" = Some cv ->
  dict_get answer_json "data" = Some data ->
  Py.contains "data_array" data = Ok true ->
  slack_table cv data = Ok table_str ->
  process_for_slack answer_json =
    Ok (slack_description answer_json
          ++ [section (PStr "*Query Results:*");
              section (PStr ("```" ++ truncate table_str ++ "```"))])%list
  /\ (String.length table_str <= 2950 -> truncate table_str = table_str)
  /\ (2950 < String.length table_str ->
      truncate table_str = PyStr.take 2950 table_str ++ "..."
      /\ String.length (PyStr.take 2950 table_str) = 2950
      /\ String.length (truncate table_str) = 2953)
  /\ String.length (truncate table_str) <= 2953
  /\ String.length ("```" ++ truncate table_str ++ "```") < 3000
  /\ truncate table_str
     = PyStr.take 2950 table_str
       ++ (if 2950 <? String.length table_str then "..." else "")
  /\ String.length (PyStr.take 2950 table_str) <= 2950.
Proof.
  intros Hc Hcv Hd Hin Ht.
  split; [|split; [|split; [|split; [|split; [|split]]]]];
    [| | | | | reflexivity | rewrite take_length; lia].
  - unfold process_for_slack. rewrite Hc, Hd, Hcv, Hin. simpl. rewrite Ht. reflexivity.
  - apply truncate_short.
  - apply truncate_long.
  - apply (truncate_bound table_str).
  - pose proof (truncate_bound table_str) as Hb. unfold max_chars in Hb.
    rewrite !length_app. simpl. lia.
Qed.

Lemma table_truncation_witness :
  exists t, slack_table (PList [column (PyStr.repeat_char "a" 3000) "STRING"])
                        (PDict [("data_array", PList [])]) = Ok t
            /\ String.length (truncate t) = 2953.
Proof.
  eexists. split; [vm_compute; reflexivity|].
  refine (let H := table_truncation wide_payload _ _ _ _ eq_refl eq_refl eq_refl eq_refl
                     eq_refl in _).
  destruct H as (_ & _ & Hlong & _).
  apply Hlong. vm_compute. lia.
Defined.

(** ** Formatting of one cell (C6, C8) *)

Lemma float_1234567_5_value :
  PyParse.float_of_string "1234567.5" = Ok d_1234567_5
  /\ (5302427037204480 * 10 = 12345675 * 2 ^ 32)%Z.
Proof. split; vm_compute; reflexivity. Qed.

Lemma among_app (t : pyval) (l1 l2 : list string) :
  Py.among t (l1 ++ l2)%list = Py.among t l1 || Py.among t l2.
Proof. unfold Py.among. apply existsb_app. Qed.

(** C6: 1234567.5 under DOUBLE is written 1,234,567.50; 1234567 under
    BIGINT is written 1,234,567; a null cell is written NULL under every
    column; a value under a tag that is none of the six numeric tags is
    written as [str] writes it. *)
Theorem cell_formatting (value col t : pyval) :
  plain_cell (PFloat d_1234567_5) (column "total" "DOUBLE") = Ok "1,234,567.50"
  /\ plain_cell (PInt 1234567) (column "orders" "BIGINT") = Ok "1,234,567"
  /\ plain_cell PNone col = Ok "NULL"
  /\ (value <> PNone ->
      Py.getitem col "type_name" = Ok t ->
      Py.among t (decimal_tags ++ integer_tags)%list = false ->
      plain_cell value col = Ok (PyRepr.str value)).
Proof.
  split; [vm_compute; reflexivity|].
  split; [vm_compute; reflexivity|].
  split; [reflexivity|].
  intros Hv Ht Hn. rewrite among_app in Hn.
  apply orb_false_elim in Hn as [Hd Hi].
  destruct value; [contradiction|..];
    unfold plain_cell; rewrite Ht; unfold mbind, res_bind; rewrite Hd, Hi; reflexivity.
Qed.

Lemma cell_formatting_witness :
  plain_cell (PInt 42) (column "region" "STRING") = Ok "42"
  /\ plain_cell (PStr "north") (column "region" "STRING") = Ok "north"
  /\ plain_cell (PFloat d_1234567_5) (column "region" "STRING") = Ok "1234567.5".
Proof.
  split; [|split].
  - apply (cell_formatting (PInt 42) (column "region" "STRING") (PStr "STRING"));
      [discriminate | reflexivity | reflexivity].
  - apply (cell_formatting (PStr "north") (column "region" "STRING") (PStr "STRING"));
      [discriminate | reflexivity | reflexivity].
  - apply (cell_formatting (PFloat d_1234567_5) (column "region" "STRING") (PStr "STRING"));
      [discriminate | reflexivity | reflexivity].
Defined.

(** The numeric cases in general. *)
Lemma cell_decimal (value col t : pyval) :
  value <> PNone ->
  Py.getitem col "type_name" = Ok t ->
  Py.among t decimal_tags = true ->
  plain_cell value col = (f ← Py.to_float value; Ok (PyFmt.format_float_comma_2f f)).
Proof.
  intros Hv Ht Hd.
  destruct value; [contradiction|..];
    unfold plain_cell; rewrite Ht; unfold mbind, res_bind; rewrite Hd; reflexivity.
Qed.

Lemma cell_integer (value col t : pyval) :
  value <> PNone ->
  Py.getitem col "type_name" = Ok t ->
  Py.among t decimal_tags = false ->
  Py.among t integer_tags = true ->
  plain_cell value col = (z ← Py.to_int value; Ok (PyFmt.format_int_comma z)).
Proof.
  intros Hv Ht Hd Hi.
  destruct value; [contradiction|..];
    unfold plain_cell; rewrite Ht; unfold mbind, res_bind; rewrite Hd, Hi; reflexivity.
Qed.

(** Cells as the back end sends them, as text. *)
Example cell_of_text :
  plain_cell (PStr "1234567.5") (column "total" "DOUBLE") = Ok "1,234,567.50"
  /\ plain_cell (PStr "1234567") (column "orders" "BIGINT") = Ok "1,234,567"
  /\ plain_cell (PStr "-0.001") (column "total" "DECIMAL") = Ok "-0.00"
  /\ plain_cell (PStr "n/a") (column "total" "FLOAT") = Raise ValueError
  /\ plain_cell (PStr "12.5") (column "orders" "INT") = Raise ValueError.
Proof. repeat split; vm_compute; reflexivity. Qed.

(** ** Payloads without a table (C4, C10) *)

Lemma slack_description_cases (answer_json : pydict) :
  slack_description answer_json = []
  \/ exists d, dict_get answer_json "query_description" = Some d
               /\ Py.truthy d = true
               /\ slack_description answer_json =
                    [section (PStr ("*Query Description:*" ++ NL ++ PyRepr.str d)); divider].
Proof.
  unfold slack_description.
  destruct (dict_get answer_json "query_description") as [d|]; [|now left].
  destruct (Py.truthy d) eqn:E; [|now left].
  right. exists d. auto.
Qed.

(** C4, as the code has it: a payload that lacks [columns] or lacks [data]
    is rendered without raising, as its [message] if it has one and as the
    fixed text "No data available." if not; a payload that has both, with
    a [columns] that is no dict with the key [columns], is rendered without
    raising as the note on the unexpected format. *)
Theorem renderers_fallback (answer_json : pydict) :
  (dict_get answer_json "columns" = None \/ dict_get answer_json "data" = None ->
   process_query_results answer_json =
     Ok (plain_description answer_json
         ++ match dict_get answer_json "message" with
            | Some msg => PyRepr.str msg
            | None => "No data available."
            end ++ NL ++ NL)
   /\ process_for_slack answer_json =
       Ok (slack_description answer_json
           ++ [section match dict_get answer_json "message" with
                       | Some msg => msg
                       | None => PStr "No data available."
                       end])%list)
  /\ (forall columns data,
       dict_get answer_json "columns" = Some columns ->
       dict_get answer_json "data" = Some data ->
       has_columns_key columns = false ->
       process_query_results answer_json =
         Ok (plain_description answer_json ++ "## Query Results" ++ NL ++ NL
             ++ "Unexpected column format: " ++ PyRepr.str columns ++ NL ++ NL)
       /\ process_for_slack answer_json =
           Ok (slack_description answer_json
               ++ [section (PStr "Unexpected data format received.")])%list).
Proof.
  split.
  - intros H. unfold process_query_results, process_for_slack.
    destruct (dict_get answer_json "columns") as [columns|];
      destruct (dict_get answer_json "data") as [data|];
      try (destruct H; discriminate);
      destruct (dict_get answer_json "message"); split; reflexivity.
  - intros columns data Hc Hd Hk.
    unfold process_query_results, process_for_slack. rewrite Hc, Hd.
    destruct columns as [ |b|z|f|s|l|c];
      try (rewrite !app_assoc_str; split; reflexivity).
    simpl in Hk. unfold dict_has in Hk.
    destruct (dict_get c "columns"); [discriminate|].
    rewrite !app_assoc_str. split; reflexivity.
Qed.

Lemma renderers_fallback_witness :
  process_query_results error_payload = Ok ("No data available." ++ NL ++ NL)
  /\ process_for_slack error_payload = Ok [section (PStr "No data available.")]
  /\ process_for_slack [("columns", PList []); ("data", PNone)] =
       Ok [section (PStr "Unexpected data format received.")].
Proof.
  split; [|split].
  - apply (renderers_fallback error_payload). left. reflexivity.
  - apply (renderers_fallback error_payload). left. reflexivity.
  - apply (proj2 (renderers_fallback [("columns", PList []); ("data", PNone)])
             (PList []) PNone); reflexivity.
Defined.

(** C4 as stated fails: both renderers raise on a table payload with a
    cell that is no number under a numeric column, and on one whose column
    list holds something that is no dict. *)
Lemma renderers_can_raise :
  process_query_results (table_payload [column "total" "DOUBLE"] [PList [PStr "n/a"]])
  = Raise ValueError
  /\ process_for_slack (table_payload [column "total" "DOUBLE"] [PList [PStr "n/a"]])
     = Raise ValueError
  /\ process_query_results (table_payload [PInt 5] []) = Raise TypeError
  /\ process_for_slack (table_payload [PInt 5] []) = Raise TypeError.
Proof. repeat split; vm_compute; reflexivity. Qed.

(** C10, as the code has it: with both keys present, when [columns] is no
    dict with the key [columns], or when the test ["data_array" in data]
    is false, the blocks are those of the description, if there is one,
    and one section with the fixed text. *)
Theorem unexpected_data_format (answer_json : pydict) (columns data : pyval) :
  dict_get answer_json "columns" = Some columns ->
  dict_get answer_json "data" = Some data ->
  has_columns_key columns = false \/ Py.contains "data_array" data = Ok false ->
  process_for_slack answer_json =
    Ok (slack_description answer_json
        ++ [section (PStr "Unexpected data format received.")])%list
  /\ (slack_description answer_json = []
      \/ exists d, dict_get answer_json "query_description" = Some d
                   /\ Py.truthy d = true
                   /\ slack_description answer_json =
                        [section (PStr ("*Query Description:*" ++ NL ++ PyRepr.str d));
                         divider]).
Proof.
  intros Hc Hd H. split; [|apply slack_description_cases].
  unfold process_for_slack. rewrite Hc, Hd.
  destruct columns as [ |b|z|f|s|l|c]; try reflexivity.
  destruct (dict_get c "columns") as [cv|] eqn:Ecv; [|reflexivity].
  destruct H as [H|H].
  - simpl in H. unfold dict_has in H. rewrite Ecv in H. discriminate.
  - rewrite H. reflexivity.
Qed.

(** A dict without the key is a [data] on which the test is false. *)
Lemma contains_dict_without (d : pydict) (k : string) :
  dict_get d k = None -> Py.contains k (PDict d) = Ok false.
Proof. intros H. simpl. unfold dict_has. now rewrite H. Qed.

Lemma unexpected_data_format_witness :
  process_for_slack
    [("query_description", PStr "Orders per region");
     ("columns", PDict [("columns", PList [])]); ("data", PDict [])] =
    Ok [section (PStr ("*Query Description:*" ++ NL ++ "Orders per region")); divider;
        section (PStr "Unexpected data format received.")].
Proof.
  apply (unexpected_data_format
           [("query_description", PStr "Orders per region");
            ("columns", PDict [("columns", PList [])]); ("data", PDict [])]
           (PDict [("columns", PList [])]) (PDict []));
    [reflexivity | reflexivity | right; reflexivity].
Defined.

(** C10 as stated fails: the payload below has both keys and its [data],
    being [None], has no key at all, yet the test ["data_array" in data]
    raises. *)
Lemma unexpected_data_can_raise :
  dict_has [("columns", PDict [("columns", PList [])]); ("data", PNone)] "columns" = true
  /\ dict_get [("columns", PDict [("columns", PList [])]); ("data", PNone)] "data"
     = Some PNone
  /\ process_for_slack [("columns", PDict [("columns", PList [])]); ("data", PNone)]
     = Raise TypeError.
Proof. repeat split; reflexivity. Qed.

(** ** Tables (C5, C7) *)

Lemma mapM_res_length {A B : Type} (f : A -> res B) (l : list A) (l' : list B) :
  mapM_res f l = Ok l' -> length l' = length l.
Proof.
  revert l'. induction l as [|a l IH]; intros l' H; simpl in H.
  - injection H as <-. reflexivity.
  - destruct (f a) as [b|e]; [|discriminate]. simpl in H.
    destruct (mapM_res f l) as [bs|e]; [|discriminate]. simpl in H.
    injection H as <-. simpl. f_equal. now apply IH.
Qed.

Lemma mapM_res_ok {A B : Type} (f : A -> res B) (l : list A) :
  forallb (fun a => is_ok (f a)) l = true -> exists l', mapM_res f l = Ok l'.
Proof.
  induction l as [|a l IH]; intros H; simpl in *.
  - now exists [].
  - apply andb_prop in H as [Ha Hl]. destruct (IH Hl) as [bs Hbs].
    destruct (f a) as [b|e]; [|discriminate]. rewrite Hbs. now exists (b :: bs).
Qed.

(** Mapping a function that formats and then wraps. *)
Lemma mapM_res_then {A B C : Type} (f : A -> res B) (g : B -> C) (l : list A) :
  mapM_res (fun a => b ← f a; Ok (g b)) l = (bs ← mapM_res f l; Ok (map g bs)).
Proof.
  induction l as [|a l IH]; simpl; [reflexivity|].
  destruct (f a) as [b|e]; simpl; [|reflexivity].
  rewrite IH. destruct (mapM_res f l); reflexivity.
Qed.

Lemma texts_of_items (items : list pyval) (l : list string) :
  mapM_res (fun v => match v with PStr s => Ok s | _ => Raise TypeError end) items = Ok l ->
  items = map PStr l.
Proof.
  revert l. induction items as [|v items IH]; intros l H; simpl in H.
  - injection H as <-. reflexivity.
  - destruct v; try discriminate. simpl in H.
    destruct (mapM_res _ items) as [ss|e]; [|discriminate]. simpl in H.
    injection H as <-. simpl. f_equal. now apply IH.
Qed.

Lemma items_of_texts (l : list string) :
  mapM_res (fun v => match v with PStr s => Ok s | _ => Raise TypeError end) (map PStr l)
  = Ok l.
Proof. induction l as [|s l IH]; simpl; [reflexivity | now rewrite IH]. Qed.

Lemma names_text_ok (cols : list pyval) :
  names_are_text cols = true ->
  exists names, mapM_res (fun col => Py.getitem col "name") cols = Ok (map PStr names).
Proof.
  induction cols as [|col cols IH]; intros H; simpl in *.
  - now exists [].
  - apply andb_prop in H as [Hc Hl]. destruct (IH Hl) as [names Hn].
    destruct (Py.getitem col "name") as [[]|]; try discriminate.
    rewrite Hn. now exists (s :: names).
Qed.

Lemma plain_cells_list (values cols : list pyval) :
  plain_cells (PList values) cols
  = mapM_res (fun vc => plain_cell (fst vc) (snd vc)) (combine values cols).
Proof. reflexivity. Qed.

(** Cells that agree with their columns convert. *)
Lemma cell_typed_ok (value col : pyval) :
  cell_typed value col = true -> is_ok (plain_cell value col) = true.
Proof.
  unfold cell_typed, plain_cell.
  destruct value as [ |b|z|f|s|l|d]; try reflexivity;
    (destruct (Py.getitem col "type_name") as [t|e]; [|discriminate]);
    cbn [mbind res_bind];
    (destruct (Py.among t decimal_tags);
     [|destruct (Py.among t integer_tags)]);
    cbn [mbind res_bind Py.to_float Py.to_int]; try discriminate; try reflexivity;
    intros H.
  - destruct f; try discriminate; reflexivity.
  - destruct (PyParse.float_of_string s); [reflexivity | discriminate].
  - destruct (PyParse.int_of_string s); [reflexivity | discriminate].
Qed.

Lemma typed_rows_convert (cols rows : list pyval) :
  rows_typed cols rows = true -> cells_convert cols rows = true.
Proof.
  unfold rows_typed, cells_convert. intros H.
  apply forallb_forall. intros row Hrow.
  rewrite forallb_forall in H. specialize (H row Hrow).
  destruct row as [ | | | | |values| ]; try discriminate.
  rewrite plain_cells_list.
  destruct (mapM_res_ok (fun vc => plain_cell (fst vc) (snd vc)) (combine values cols))
    as [cells ->]; [|reflexivity].
  apply forallb_forall. intros vc Hvc. apply cell_typed_ok.
  rewrite forallb_forall in H. now apply H.
Qed.

Example orders_rows_typed :
  rows_typed [column "region" "STRING"; column "total" "DOUBLE"]
             [PList [PStr "north"; PStr "1234567.5"]; PList [PStr "south"; PNone]] = true.
Proof. vm_compute. reflexivity. Qed.

(** *** The plain table *)

Lemma plain_cells_length (cols values : list pyval) (cells : list string) :
  length values = length cols ->
  plain_cells (PList values) cols = Ok cells -> length cells = length cols.
Proof.
  intros Hlen H. unfold plain_cells in H. simpl in H.
  apply mapM_res_length in H. rewrite H, length_combine, Hlen. apply Nat.min_id.
Qed.

Lemma map_const_length {A B : Type} (l1 : list A) (l2 : list B) (s : string) :
  length l1 = length l2 -> map (fun _ => s) l1 = map (fun _ => s) l2.
Proof.
  revert l2. induction l1 as [|a l1 IH]; intros [|b l2] H; simpl in *;
    try discriminate; [reflexivity|]. f_equal. apply IH. lia.
Qed.

(** The table, when it is returned, is the text for the names of the
    columns and the formatted cells of the rows. *)
Lemma plain_table_returns (cols rows : list pyval) (data : pyval) (t : string) :
  Py.getitem data "data_array" = Ok (PList rows) ->
  plain_table (PList cols) data = Ok t ->
  exists names cells,
    mapM_res (fun col => Py.getitem col "name") cols = Ok (map PStr names)
    /\ mapM_res (fun row => plain_cells row cols) rows = Ok cells
    /\ t = plain_text names cells.
Proof.
  intros Hd H. unfold plain_table in H. simpl in H.
  destruct (mapM_res (fun col => Py.getitem col "name") cols) as [items|e] eqn:En;
    [|discriminate]. simpl in H.
  unfold Py.join in H.
  destruct (mapM_res _ items) as [names|e] eqn:Ej; [|discriminate]. simpl in H.
  apply texts_of_items in Ej. subst items.
  rewrite Hd in H. simpl in H.
  unfold plain_row in H. rewrite mapM_res_then in H.
  destruct (mapM_res (fun row => plain_cells row cols) rows) as [cells|e] eqn:Ec;
    [|discriminate]. simpl in H.
  injection H as <-. exists names, cells. split; [reflexivity|]. split; [reflexivity|].
  unfold plain_text.
  rewrite (map_const_length cols names).
  - rewrite !app_assoc_str. reflexivity.
  - apply mapM_res_length in En. rewrite length_map in En. now symmetry.
Qed.

(** The table is returned when the names are text and the cells convert. *)
Lemma plain_table_total (cols rows : list pyval) (data : pyval) :
  Py.getitem data "data_array" = Ok (PList rows) ->
  names_are_text cols = true ->
  cells_convert cols rows = true ->
  exists t, plain_table (PList cols) data = Ok t.
Proof.
  intros Hd Hn Hc. unfold plain_table. simpl.
  destruct (names_text_ok cols Hn) as [names En]. rewrite En. simpl.
  unfold Py.join. rewrite items_of_texts. simpl. rewrite Hd. simpl.
  unfold plain_row. rewrite mapM_res_then.
  destruct (mapM_res_ok (fun row => plain_cells row cols) rows Hc) as [cells Ec].
  rewrite Ec. simpl. eauto.
Qed.

Lemma formatted_rows_fit (cols rows : list pyval) (cells : list (list string)) :
  forallb (row_fits cols) rows = true ->
  mapM_res (fun row => plain_cells row cols) rows = Ok cells ->
  Forall (fun r => length r = length cols) cells.
Proof.
  revert cells. induction rows as [|row rows IH]; intros cells Hfit H; simpl in *.
  - injection H as <-. constructor.
  - apply andb_prop in Hfit as [Hrow Hrows].
    destruct (plain_cells row cols) as [r|e] eqn:Er; [|discriminate]. simpl in H.
    destruct (mapM_res _ rows) as [rs|e]; [|discriminate]. simpl in H.
    injection H as <-. constructor; [|now apply IH].
    destruct row; try discriminate. simpl in Hrow.
    apply Nat.eqb_eq in Hrow. now apply (plain_cells_length cols l).
Qed.

Lemma plain_lines_map (cells : list (list string)) :
  map plain_line cells
  = map (fun l => l ++ NL) (map (fun row => "| " ++ PyStr.join " | " row ++ " |") cells).
Proof.
  rewrite map_map. apply map_ext. intros row. unfold plain_line.
  now rewrite !app_assoc_str.
Qed.

Lemma plain_text_lines (names : list string) (cells : list (list string)) :
  plain_text names cells
  = String.concat ""
      (map (fun l => l ++ NL)
           (("| " ++ PyStr.join " | " names ++ " |")
            :: ("|" ++ PyStr.join "|" (map (fun _ => "---") names) ++ "|")
            :: map (fun row => "| " ++ PyStr.join " | " row ++ " |") cells)).
Proof.
  unfold plain_text. cbn [map]. rewrite !concat_empty_cons, !app_assoc_str.
  now rewrite plain_lines_map.
Qed.

(** What the lines of the table are, when no name and no cell has a bar
    or a newline in it. *)
Lemma plain_text_parses (names : list string) (cells : list (list string)) (n : nat) :
  length names = n ->
  Forall (fun r => length r = n) cells ->
  forallb md_safe names = true ->
  forallb (forallb md_safe) cells = true ->
  exists header separator lines,
    text_lines (plain_text names cells) = header :: separator :: lines
    /\ length lines = length cells
    /\ (n <> 0 ->
        md_cells header = map md_pad names
        /\ length (md_cells header) = n
        /\ Forall2 (fun line row => md_cells line = map md_pad row) lines cells
        /\ Forall (fun line => length (md_cells line) = n) lines).
Proof.
  intros Hlen Hfit Hnames Hcells.
  exists ("| " ++ PyStr.join " | " names ++ " |"),
         ("|" ++ PyStr.join "|" (map (fun _ => "---") names) ++ "|"),
         (map (fun row => "| " ++ PyStr.join " | " row ++ " |") cells).
  split; [|split].
  - rewrite plain_text_lines. apply text_lines_concat.
    constructor; [now apply row_text_one_line|].
    constructor.
    + rewrite !free_of_app. unfold PyStr.join.
      rewrite free_of_join; [reflexivity | reflexivity |].
      apply Forall_map. apply Forall_forall. reflexivity.
    + apply Forall_map. eapply Forall_impl; [apply forallb_Forall_true, Hcells|].
      intros row Hrow. now apply row_text_one_line.
  - apply length_map.
  - intros Hn.
    assert (Hrows : Forall (fun row => md_cells ("| " ++ PyStr.join " | " row ++ " |")
                                       = map md_pad row) cells).
    { apply Forall_forall. intros row Hrow.
      apply md_cells_text.
      - rewrite Forall_forall in Hfit. specialize (Hfit row Hrow).
        destruct row; [simpl in Hfit; lia | discriminate].
      - apply forallb_Forall_true in Hcells. rewrite Forall_forall in Hcells.
        now apply Hcells. }
    assert (Hhead : md_cells ("| " ++ PyStr.join " | " names ++ " |") = map md_pad names).
    { apply md_cells_text; [|exact Hnames]. destruct names; [simpl in Hlen; lia | discriminate]. }
    split; [exact Hhead|]. split; [now rewrite Hhead, length_map|]. split.
    + clear -Hrows. induction Hrows as [|row cells Hrow _ IH]; constructor; assumption.
    + apply Forall_map. apply Forall_forall. intros row Hrow.
      rewrite Forall_forall in Hrows, Hfit. cbn.
      now rewrite (Hrows row Hrow), length_map, (Hfit row Hrow).
Qed.

(** C5, as the code has it: for a payload whose [columns] holds a list
    of columns, whose [data] holds a list of rows under [data_array], and
    whose rows have one value per column, the text that
    [process_query_results] returns is the description and the title
    followed by the table for the names of the columns and the formatted
    cells.  When no name and no formatted cell has a bar or a newline in
    it, the table that is emitted has a header line, a separator line and
    one line per row; and when there is a column at all, the header has
    one cell per column between its bars, the name of the column, and
    every line of a row has one cell per column, the formatted cell.  The
    text is returned whenever the names are text and the cells convert. *)
Theorem plain_table_shape (answer_json c : pydict) (cols rows : list pyval) (data : pyval) :
  dict_get answer_json "columns" = Some (PDict c) ->
  dict_get c "columns" = Some (PList cols) ->
  dict_get answer_json "data" = Some data ->
  Py.getitem data "data_array" = Ok (PList rows) ->
  forallb (row_fits cols) rows = true ->
  (forall out, process_query_results answer_json = Ok out ->
     exists (names : list string) (cells : list (list string)),
       mapM_res (fun col => Py.getitem col "name") cols = Ok (map PStr names)
       /\ mapM_res (fun row => plain_cells row cols) rows = Ok cells
       /\ length names = length cols
       /\ length cells = length rows
       /\ Forall (fun r => length r = length cols) cells
       /\ out = plain_description answer_json ++ "## Query Results" ++ NL ++ NL
                ++ "| " ++ PyStr.join " | " names ++ " |" ++ NL
                ++ "|" ++ PyStr.join "|" (map (fun _ => "---") names) ++ "|" ++ NL
                ++ String.concat "" (map plain_line cells)
       /\ out = plain_description answer_json ++ "## Query Results" ++ NL ++ NL
                ++ plain_text names cells
       /\ (forallb md_safe names = true ->
           forallb (forallb md_safe) cells = true ->
           exists (header separator : string) (lines : list string),
             text_lines (plain_text names cells) = header :: separator :: lines
             /\ length lines = length rows
             /\ (cols <> [] ->
                 md_cells header = map md_pad names
                 /\ length (md_cells header) = length cols
                 /\ Forall2 (fun line row => md_cells line = map md_pad row) lines cells
                 /\ Forall (fun line => length (md_cells line) = length cols) lines)))
  /\ (names_are_text cols = true -> cells_convert cols rows = true ->
      exists out, process_query_results answer_json = Ok out).
Proof.
  intros Hc Hcv Hd Hda Hfit.
  unfold process_query_results. rewrite Hc, Hd, Hcv. split.
  - intros out H.
    destruct (plain_table (PList cols) data) as [t|e] eqn:Et; [|discriminate].
    simpl in H. injection H as <-.
    destruct (plain_table_returns cols rows data t Hda Et) as (names & cells & Hn & Hcells & ->).
    assert (Hlen : length names = length cols).
    { apply mapM_res_length in Hn. now rewrite length_map in Hn. }
    assert (Hrows : length cells = length rows) by now apply mapM_res_length in Hcells.
    assert (Hfits : Forall (fun r => length r = length cols) cells)
      by now apply (formatted_rows_fit cols rows).
    exists names, cells.
    split; [exact Hn|]. split; [exact Hcells|].
    split; [exact Hlen|]. split; [exact Hrows|]. split; [exact Hfits|].
    split; [unfold plain_text; rewrite !app_assoc_str; reflexivity|].
    split; [rewrite !app_assoc_str; reflexivity|].
    intros Hsn Hsc.
    destruct (plain_text_parses names cells (length cols) Hlen Hfits Hsn Hsc)
      as (header & separator & lines & Hlines & Hcount & Hparts).
    exists header, separator, lines.
    split; [exact Hlines|]. split; [now rewrite Hcount|].
    intros Hne. apply Hparts. now destruct cols.
  - intros Hn Hconv.
    destruct (plain_table_total cols rows data Hda Hn Hconv) as [t Et].
    rewrite Et. simpl. eauto.
Qed.

Lemma plain_table_shape_witness :
  process_query_results orders_payload =
    Ok ("## Query Description" ++ NL ++ NL ++ "Orders per region" ++ NL ++ NL
        ++ "## Query Results" ++ NL ++ NL
        ++ "| region | total |" ++ NL
        ++ "|---|---|" ++ NL
        ++ "| north | 1,234,567.50 |" ++ NL
        ++ "| south | NULL |" ++ NL)
  /\ exists header separator lines,
       text_lines (plain_text ["region"; "total"]
                     [["north"; "1,234,567.50"]; ["south"; "NULL"]])
       = header :: separator :: lines
       /\ length lines = 2
       /\ length (md_cells header) = 2
       /\ Forall (fun line => length (md_cells line) = 2) lines.
Proof.
  destruct (plain_table_shape orders_payload Demo.schema
              [column "region" "STRING"; column "total" "DOUBLE"]
              [PList [PStr "north"; PStr "1234567.5"]; PList [PStr "south"; PNone]]
              (PDict Demo.rows) eq_refl eq_refl eq_refl eq_refl eq_refl)
    as [Hshape Htotal].
  destruct (Htotal eq_refl eq_refl) as [out Hout].
  destruct (Hshape out Hout) as (names & cells & Hn & Hcells & _ & _ & _ & Hout' & _ & Hparse).
  injection Hcells as <-.
  assert (Hnames : names = ["region"; "total"]).
  { clear -Hn. cbv in Hn. injection Hn as Hn.
    destruct names as [|n1 [|n2 [|n3 names]]]; try discriminate.
    now injection Hn as <- <-. }
  subst names. split.
  - rewrite Hout. f_equal. rewrite Hout'. reflexivity.
  - destruct (Hparse eq_refl eq_refl) as (header & separator & lines & Hl & Hc & Hcols).
    destruct (Hcols ltac:(discriminate)) as (_ & Hh & _ & Hr).
    exists header, separator, lines. repeat split; assumption.
Defined.

(** C5 as stated fails: a cell with a bar and a newline in it is
    written as it is, so the table emitted for the one row below is the
    table emitted for two rows and has two lines of data; and a column
    name with a bar in it gives a header of two cells for the one
    column. *)
Lemma cell_text_breaks_rows :
  forallb (row_fits [column "c" "STRING"]) [PList [PStr ("a |" ++ NL ++ "| b")]] = true
  /\ process_query_results
       (table_payload [column "c" "STRING"] [PList [PStr ("a |" ++ NL ++ "| b")]])
     = Ok ("## Query Results" ++ NL ++ NL
           ++ "| c |" ++ NL ++ "|---|" ++ NL ++ "| a |" ++ NL ++ "| b |" ++ NL)
  /\ process_query_results
       (table_payload [column "c" "STRING"] [PList [PStr "a"]; PList [PStr "b"]])
     = process_query_results
         (table_payload [column "c" "STRING"] [PList [PStr ("a |" ++ NL ++ "| b")]])
  /\ text_lines ("| c |" ++ NL ++ "|---|" ++ NL ++ "| a |" ++ NL ++ "| b |" ++ NL)
     = ["| c |"; "|---|"; "| a |"; "| b |"]
  /\ process_query_results (table_payload [column "x | y" "STRING"] [])
     = Ok ("## Query Results" ++ NL ++ NL ++ "| x | y |" ++ NL ++ "|---|" ++ NL)
  /\ md_cells "| x | y |" = [" x "; " y "].
Proof. repeat split; vm_compute; reflexivity. Qed.

(** *** The table in blocks: the widths *)

Lemma insert_as_alter (l : list nat) (i w : nat) (f : nat -> nat) :
  l !! i = Some w -> <[i := f w]> l = alter f i l.
Proof.
  intros H. apply list_eq. intros j. destruct (decide (i = j)) as [<-|Hne].
  - rewrite list_lookup_insert_eq by (eapply lookup_lt_Some; eauto).
    rewrite list_lookup_alter_eq, H. reflexivity.
  - rewrite list_lookup_insert_ne, list_lookup_alter_ne by done. reflexivity.
Qed.

Lemma bump_length (cells : list string) (i : nat) (widths : list nat) :
  length (bump i cells widths) = length widths.
Proof.
  revert i widths. induction cells as [|c cs IH]; intros i widths; simpl; [reflexivity|].
  rewrite IH. apply length_alter.
Qed.

(** The row loop of [process_for_slack] formats the cells as the row loop
    of [process_query_results] does, and raises the widths on its way. *)
Lemma slack_cells_eq (cols : list pyval) (values : list pyval) (i : nat) (widths : list nat) :
  i + length values <= length cols ->
  length widths = length cols ->
  slack_cells (PList cols) i values widths
  = (cells ← mapM_res (fun vc => plain_cell (fst vc) (snd vc))
                      (combine values (drop i cols));
     Ok (bump i cells widths, cells)).
Proof.
  revert i widths. induction values as [|value rest IH]; intros i widths Hi Hw.
  - reflexivity.
  - simpl in Hi.
    destruct (lookup_lt_is_Some_2 cols i) as [col Hcol]; [lia|].
    destruct (lookup_lt_is_Some_2 widths i) as [w Hwi]; [lia|].
    rewrite (drop_S cols col i Hcol).
    cbn [slack_cells combine mapM_res fst snd Py.getitem_int].
    rewrite Hcol. cbn [mbind res_bind].
    change (slack_cell value col) with (plain_cell value col).
    destruct (plain_cell value col) as [fv|e]; [|reflexivity].
    cbn [mbind res_bind]. unfold width_at. rewrite Hwi. cbn [mbind res_bind].
    rewrite (insert_as_alter widths i w (fun w => Nat.max w (String.length fv)) Hwi).
    rewrite IH by (rewrite ?length_alter; lia).
    destruct (mapM_res _ (combine rest (drop (S i) cols))) as [cells|e]; reflexivity.
Qed.

(** C8: the two renderers format a cell alike.  For every value and
    every column the cell of [process_query_results] and the cell of
    [process_for_slack] are the same text, or raise the same exception;
    and for every row that is not longer than the column list, the row
    loop of [process_for_slack] arrives at the very cells that the row
    loop of [process_query_results] arrives at, or raises as it does. *)
Theorem cell_formatting_shared (value col : pyval) (cols values : list pyval)
    (widths : list nat) :
  plain_cell value col = slack_cell value col
  /\ (length values <= length cols ->
      length widths = length cols ->
      slack_cells (PList cols) 0 values widths
      = (cells ← plain_cells (PList values) cols; Ok (bump 0 cells widths, cells))).
Proof.
  split; [reflexivity|].
  intros Hv Hw. rewrite slack_cells_eq by (simpl; lia).
  rewrite drop_0. reflexivity.
Qed.

Lemma cell_formatting_shared_witness :
  slack_cells (PList [column "region" "STRING"; column "total" "DOUBLE"]) 0
              [PStr "north"; PStr "1234567.5"] [6; 5]
  = Ok ([6; 12], ["north"; "1,234,567.50"])
  /\ plain_cells (PList [PStr "north"; PStr "1234567.5"])
                 [column "region" "STRING"; column "total" "DOUBLE"]
     = Ok ["north"; "1,234,567.50"].
Proof.
  split; [|vm_compute; reflexivity].
  rewrite (proj2 (cell_formatting_shared PNone PNone
                    [column "region" "STRING"; column "total" "DOUBLE"]
                    [PStr "north"; PStr "1234567.5"] [6; 5]));
    [vm_compute; reflexivity | simpl; lia | reflexivity].
Defined.

Lemma slack_rows_eq (cols rows : list pyval) (widths : list nat) :
  forallb (row_fits cols) rows = true ->
  length widths = length cols ->
  slack_rows (PList cols) rows widths
  = (cells ← mapM_res (fun row => plain_cells row cols) rows;
     Ok (bump_rows cells widths, cells)).
Proof.
  revert widths. induction rows as [|row rows IH]; intros widths Hfit Hw.
  - reflexivity.
  - simpl in Hfit. apply andb_prop in Hfit as [Hrow Hrows].
    destruct row as [ | | | | |values| ]; try discriminate.
    simpl in Hrow. apply Nat.eqb_eq in Hrow.
    cbn [slack_rows mapM_res Py.iter]. cbn [mbind res_bind].
    rewrite slack_cells_eq by lia.
    rewrite drop_0, plain_cells_list.
    destruct (mapM_res _ (combine values cols)) as [cells|e]; [|reflexivity].
    cbn [mbind res_bind fst snd].
    rewrite IH by (rewrite ?bump_length; auto).
    destruct (mapM_res _ rows) as [more|e]; reflexivity.
Qed.

Lemma lookup_map {A B : Type} (f : A -> B) (l : list A) (i : nat) :
  map f l !! i = f <$> l !! i.
Proof.
  revert i. induction l as [|a l IH]; intros [|i]; simpl; try reflexivity. apply IH.
Qed.

Lemma bump_lookup (cells : list string) (i : nat) (widths : list nat) (j : nat) :
  bump i cells widths !! j
  = (fun x => if i <=? j then Nat.max x (String.length (nth (j - i) cells "")) else x)
      <$> widths !! j.
Proof.
  revert i widths. induction cells as [|c cs IH]; intros i widths; simpl.
  - destruct (widths !! j) as [x|]; simpl; [|reflexivity].
    destruct (i <=? j), (j - i); simpl; f_equal; lia.
  - rewrite IH. destruct (decide (i = j)) as [<-|Hne].
    + rewrite list_lookup_alter_eq, Nat.sub_diag, Nat.leb_refl.
      replace (S i <=? i) with false by (symmetry; apply Nat.leb_gt; lia).
      destruct (widths !! i) as [x|]; reflexivity.
    + rewrite list_lookup_alter_ne by done.
      destruct (Nat.leb_spec (S i) j), (Nat.leb_spec i j); try lia; [|reflexivity].
      replace (j - i) with (S (j - S i)) by lia. reflexivity.
Qed.

Lemma bump_rows_lookup (cells : list (list string)) (widths : list nat) (j : nat) :
  bump_rows cells widths !! j
  = (fun x => Nat.max x (widest (map String.length (column_cells j cells))))
      <$> widths !! j.
Proof.
  unfold bump_rows. revert widths.
  induction cells as [|r rs IH]; intros widths; simpl.
  - destruct (widths !! j); simpl; f_equal; lia.
  - rewrite IH, bump_lookup. rewrite Nat.sub_0_r.
    destruct (widths !! j); simpl; f_equal; lia.
Qed.

(** The widths the code arrives at, cell by cell, are the widths of the
    specification. *)
Lemma final_widths (names : list string) (cells : list (list string)) :
  bump_rows cells (map String.length names) = spec_widths names cells.
Proof.
  apply list_eq. intros j. unfold spec_widths, spec_width.
  rewrite bump_rows_lookup, lookup_map, list_lookup_imap.
  destruct (names !! j); reflexivity.
Qed.

(** *** The table in blocks: the text *)

Lemma pad_cells_eq (widths : list nat) (row : list string) (i : nat) :
  i + length row <= length widths ->
  pad_cells widths i (map PStr row) = Ok (zip_with PyStr.ljust row (drop i widths)).
Proof.
  revert i. induction row as [|s row IH]; intros i Hi; simpl in *.
  - reflexivity.
  - destruct (lookup_lt_is_Some_2 widths i) as [w Hw]; [lia|].
    unfold width_at. rewrite Hw. simpl. rewrite IH by lia. simpl.
    rewrite (drop_S widths w i Hw). reflexivity.
Qed.

Lemma pad_cells_text (widths : list nat) (items : list pyval) (i : nat) (l : list string) :
  pad_cells widths i items = Ok l -> exists strs, items = map PStr strs.
Proof.
  revert i l. induction items as [|v items IH]; intros i l H; simpl in H.
  - now exists [].
  - destruct v; try discriminate.
    destruct (width_at widths i); [|discriminate]. simpl in H.
    destruct (pad_cells widths (S i) items) as [ss|e] eqn:E; [|discriminate].
    destruct (IH _ _ E) as [strs ->]. now exists (s :: strs).
Qed.

Lemma len_of_texts (names : list string) :
  mapM_res Py.len (map PStr names) = Ok (map String.length names).
Proof. induction names as [|s names IH]; simpl; [reflexivity | now rewrite IH]. Qed.

Lemma slack_lines_eq (widths : list nat) (cells : list (list string)) :
  Forall (fun r => length r <= length widths) cells ->
  mapM_res (slack_line widths) cells
  = Ok (map (fun row => PyStr.join " | " (pad_row widths row) ++ NL) cells).
Proof.
  induction 1 as [|r rs Hr _ IH]; [reflexivity|].
  cbn [mapM_res map]. rewrite IH. unfold slack_line.
  rewrite pad_cells_eq by (simpl; lia). rewrite drop_0. reflexivity.
Qed.

(** With column names that are text and rows that fit, the table is the
    text for the names, the formatted cells and the widths of the
    specification. *)
Lemma slack_table_eq (cols rows : list pyval) (data : pyval) (names : list string) :
  Py.getitem data "data_array" = Ok (PList rows) ->
  forallb (row_fits cols) rows = true ->
  mapM_res (fun col => Py.getitem col "name") cols = Ok (map PStr names) ->
  slack_table (PList cols) data
  = (cells ← mapM_res (fun row => plain_cells row cols) rows;
     Ok (slack_text names cells (spec_widths names cells))).
Proof.
  intros Hd Hfit Hn.
  assert (Hlen : length names = length cols).
  { apply mapM_res_length in Hn. now rewrite length_map in Hn. }
  unfold slack_table. cbn [Py.iter mbind res_bind].
  rewrite Hn. cbn [mbind res_bind]. rewrite len_of_texts. cbn [mbind res_bind].
  rewrite Hd. cbn [Py.iter mbind res_bind].
  rewrite slack_rows_eq by (rewrite ?length_map; auto).
  destruct (mapM_res (fun row => plain_cells row cols) rows) as [cells|e] eqn:Ec;
    [|reflexivity].
  cbn [mbind res_bind fst snd]. rewrite final_widths.
  rewrite pad_cells_eq by (unfold spec_widths; rewrite length_imap; simpl; lia).
  cbn [mbind res_bind]. rewrite drop_0.
  rewrite slack_lines_eq; [reflexivity|].
  eapply Forall_impl; [apply (formatted_rows_fit cols rows cells Hfit Ec)|].
  intros r Hr. simpl in Hr. unfold spec_widths. rewrite length_imap. lia.
Qed.

(** A table that is returned has column names that are text. *)
Lemma slack_table_names (cols : list pyval) (data : pyval) (t : string) :
  slack_table (PList cols) data = Ok t ->
  exists names, mapM_res (fun col => Py.getitem col "name") cols = Ok (map PStr names).
Proof.
  intros H. unfold slack_table in H. cbn [Py.iter mbind res_bind] in H.
  destruct (mapM_res (fun col => Py.getitem col "name") cols) as [items|e];
    [|discriminate]. cbn [mbind res_bind] in H.
  destruct (mapM_res Py.len items) as [w0|e]; [|discriminate]. cbn [mbind res_bind] in H.
  destruct (Py.getitem data "data_array") as [da|e]; [|discriminate].
  cbn [mbind res_bind] in H.
  destruct (Py.iter da) as [rows|e]; [|discriminate]. cbn [mbind res_bind] in H.
  destruct (slack_rows (PList cols) rows w0) as [r|e]; [|discriminate].
  cbn [mbind res_bind] in H.
  destruct (pad_cells (fst r) 0 items) as [hdr|e] eqn:Eh; [|discriminate].
  destruct (pad_cells_text _ _ _ _ Eh) as [names ->]. now exists names.
Qed.

Lemma widest_ge (lens : list nat) (x : nat) : In x lens -> x <= widest lens.
Proof.
  induction lens as [|y lens IH]; simpl; [contradiction|].
  intros [->|H]; [lia|]. specialize (IH H). lia.
Qed.

(** Every name and every cell, once padded, is as wide as its column. *)
Lemma spec_widths_cover (names : list string) (cells : list (list string)) :
  Forall (fun r => length r = length names) cells ->
  Forall2 (fun name w => String.length (PyStr.ljust name w) = w)
          names (spec_widths names cells)
  /\ Forall (fun row =>
               Forall2 (fun cell w => String.length (PyStr.ljust cell w) = w)
                       row (spec_widths names cells)) cells.
Proof.
  intros Hfit. split.
  - apply Forall2_same_length_lookup_2; [unfold spec_widths; now rewrite length_imap|].
    intros j name w Hname Hw. unfold spec_widths in Hw.
    rewrite list_lookup_imap, Hname in Hw. injection Hw as <-.
    rewrite ljust_length. unfold spec_width. lia.
  - apply Forall_forall. intros row Hrow.
    apply Forall2_same_length_lookup_2.
    + unfold spec_widths. rewrite length_imap.
      rewrite Forall_forall in Hfit. now apply Hfit.
    + intros j cell w Hcell Hw. unfold spec_widths in Hw.
      rewrite list_lookup_imap in Hw.
      destruct (names !! j) as [name|]; [|discriminate]. injection Hw as <-.
      rewrite ljust_length. unfold spec_width.
      assert (String.length cell <= widest (map String.length (column_cells j cells))).
      { apply widest_ge. apply in_map_iff. exists cell. split; [reflexivity|].
        unfold column_cells. apply in_map_iff. exists row. split.
        - rewrite nth_lookup, Hcell. reflexivity.
        - now apply list_elem_of_In. }
      lia.
Qed.

(** C7: for a payload whose [columns] holds a list of columns, whose
    [data] holds a list of rows under [data_array], and whose rows have one
    value per column, the blocks that [process_for_slack] returns are those
    of the description, a title, and one section with the table between
    code fences.  In the table every column is padded to the larger of the
    width of its header and the width of its widest formatted cell, so that
    every padded name and cell of a column has that width.  A description
    that is present and not empty gives a section and a divider at the
    start.  The blocks are returned whenever the names are text and the
    cells convert. *)
Theorem slack_table_shape (answer_json c : pydict) (cols rows : list pyval) (data : pyval) :
  dict_get answer_json "columns" = Some (PDict c) ->
  dict_get c "columns" = Some (PList cols) ->
  dict_get answer_json "data" = Some data ->
  Py.getitem data "data_array" = Ok (PList rows) ->
  forallb (row_fits cols) rows = true ->
  (forall blocks, process_for_slack answer_json = Ok blocks ->
     exists (names : list string) (cells : list (list string)),
       mapM_res (fun col => Py.getitem col "name") cols = Ok (map PStr names)
       /\ mapM_res (fun row => plain_cells row cols) rows = Ok cells
       /\ blocks =
            (slack_description answer_json
             ++ [section (PStr "*Query Results:*");
                 section (PStr ("```"
                                ++ truncate (slack_text names cells (spec_widths names cells))
                                ++ "```"))])%list
       /\ Forall2 (fun name w => String.length (PyStr.ljust name w) = w)
                  names (spec_widths names cells)
       /\ Forall (fun row =>
                    Forall2 (fun cell w => String.length (PyStr.ljust cell w) = w)
                            row (spec_widths names cells)) cells)
  /\ (forall d, dict_get answer_json "query_description" = Some d ->
                Py.truthy d = true ->
                slack_description answer_json
                = [section (PStr ("*Query Description:*" ++ NL ++ PyRepr.str d)); divider])
  /\ (names_are_text cols = true -> cells_convert cols rows = true ->
      exists blocks, process_for_slack answer_json = Ok blocks).
Proof.
  intros Hc Hcv Hd Hda Hfit.
  assert (Hin : Py.contains "data_array" data = Ok true).
  { destruct data; try discriminate. simpl in *. unfold dict_has.
    destruct (dict_get d "data_array"); [reflexivity | discriminate]. }
  unfold process_for_slack. rewrite Hc, Hd, Hcv, Hin. cbn [mbind res_bind].
  split; [|split].
  - intros blocks H.
    destruct (slack_table (PList cols) data) as [t|e] eqn:Et; [|discriminate].
    cbn [mbind res_bind] in H. injection H as <-.
    destruct (slack_table_names cols data t Et) as [names Hn].
    rewrite (slack_table_eq cols rows data names Hda Hfit Hn) in Et.
    destruct (mapM_res (fun row => plain_cells row cols) rows) as [cells|e] eqn:Ec;
      [|discriminate].
    cbn [mbind res_bind] in Et. injection Et as <-.
    exists names, cells. split; [exact Hn|]. split; [reflexivity|].
    split; [reflexivity|].
    apply spec_widths_cover.
    assert (Hlen : length names = length cols).
    { apply mapM_res_length in Hn. now rewrite length_map in Hn. }
    eapply Forall_impl; [apply (formatted_rows_fit cols rows cells Hfit Ec)|].
    intros r Hr. simpl in Hr. lia.
  - intros d Hdesc Ht. unfold slack_description. rewrite Hdesc, Ht. reflexivity.
  - intros Hn Hconv.
    destruct (names_text_ok cols Hn) as [names En].
    rewrite (slack_table_eq cols rows data names Hda Hfit En).
    destruct (mapM_res_ok (fun row => plain_cells row cols) rows Hconv) as [cells Ec].
    rewrite Ec. cbn [mbind res_bind]. eauto.
Qed.

Lemma slack_table_shape_witness :
  process_for_slack orders_payload =
    Ok [section (PStr ("*Query Description:*" ++ NL ++ "Orders per region"));
        divider;
        section (PStr "*Query Results:*");
        section (PStr ("```" ++ "region | total       " ++ NL
                             ++ "-------+-------------" ++ NL
                             ++ "north  | 1,234,567.50" ++ NL
                             ++ "south  | NULL        " ++ NL ++ "```"))].
Proof.
  destruct (slack_table_shape orders_payload Demo.schema
              [column "region" "STRING"; column "total" "DOUBLE"]
              [PList [PStr "north"; PStr "1234567.5"]; PList [PStr "south"; PNone]]
              (PDict Demo.rows) eq_refl eq_refl eq_refl eq_refl eq_refl)
    as (Hshape & Hdesc & Htotal).
  destruct (Htotal eq_refl eq_refl) as [blocks Hblocks].
  rewrite Hblocks. f_equal.
  destruct (Hshape blocks Hblocks) as (names & cells & Hn & Hcells & -> & _).
  injection Hcells as <-.
  assert (Hnames : names = ["region"; "total"]).
  { clear -Hn. cbv in Hn. injection Hn as Hn.
    destruct names as [|n1 [|n2 [|n3 names]]]; try discriminate.
    now injection Hn as <- <-. }
  subst names. reflexivity.
Defined.

(** ** The orchestrator and the session registry (C1, C2, C9) *)

Section Sessions.
Context {World : Type} (genie_api : GenieAPI World) (space_id : string).

Lemma quiet_ret {A : Type} (a : A) : quiet (World := World) (ret a).
Proof.
  intros cv st. repeat split. exists []. now rewrite app_nil_r.
Qed.

Lemma quiet_lift {A : Type} (r : res A) : quiet (World := World) (lift r).
Proof.
  intros cv st. repeat split. exists []. now rewrite app_nil_r.
Qed.

Lemma quiet_invoke {A : Type} (c : call) (f : World -> res A * World) :
  is_start c = false -> quiet (invoke c f).
Proof.
  intros Hc cv st. unfold invoke. simpl.
  destruct (f (world st)) as [r w]. simpl. repeat split.
  exists [c]. split; [reflexivity|]. simpl. now rewrite Hc.
Qed.

Lemma quiet_bind {A B : Type} (c : M (World := World) A) (k : A -> M (World := World) B) :
  quiet c -> (forall a, quiet (k a)) -> quiet (bind c k).
Proof.
  intros Hc Hk cv st. unfold bind.
  destruct (Hc cv st) as (Hv & Hl & rest & Hcalls & Hrest).
  destruct (c (cv, st)) as [[a|e] [cv' st']]; simpl in *; subst cv'.
  - destruct (Hk a cv st') as (Hv' & Hl' & rest' & Hcalls' & Hrest').
    split; [exact Hv'|]. split; [congruence|].
    exists (rest ++ rest')%list. split.
    + rewrite Hcalls', Hcalls. now rewrite app_assoc.
    + rewrite existsb_app, Hrest, Hrest'. reflexivity.
  - split; [reflexivity|]. split; [exact Hl|]. exists rest. auto.
Qed.

Ltac quiet_steps :=
  repeat first
    [ apply quiet_ret
    | apply quiet_lift
    | apply quiet_invoke; reflexivity
    | apply quiet_bind; [|intros ?]
    | match goal with
      | |- quiet (match ?x with _ => _ end) => destruct x
      end ].

Lemma answer_quiet (initial_message : GenieMessage) :
  quiet (answer genie_api space_id initial_message).
Proof. unfold answer, fetch_query_result, tabular_payload. quiet_steps. Qed.

(** The body of the [try], call by call. *)
Lemma ask_genie_try_unfold (question : string) (given : option string)
    (st : env) :
  ask_genie_try genie_api question space_id (given, st) =
  match given with
  | Some c =>
      let '(r, w) := create_message_and_wait genie_api space_id c question (world st) in
      let st1 := {| world := w;
                    calls := (calls st ++ [CreateMessage space_id c question])%list;
                    logged := logged st |} in
      match r with
      | Ok m => answer genie_api space_id m (Some c, st1)
      | Raise e => (Raise e, (Some c, st1))
      end
  | None =>
      let '(r, w) := start_conversation_and_wait genie_api space_id question (world st) in
      let st1 := {| world := w;
                    calls := (calls st ++ [StartConversation space_id question])%list;
                    logged := logged st |} in
      match r with
      | Ok m => answer genie_api space_id m (Some (conversation_id m), st1)
      | Raise e => (Raise e, (None, st1))
      end
  end.
Proof.
  unfold ask_genie_try, initial, bind, get_conversation_id, invoke,
    set_conversation_id, ret.
  simpl. destruct given as [c|]; simpl.
  - destruct (create_message_and_wait genie_api space_id c question (world st))
      as [[m|e] w]; reflexivity.
  - destruct (start_conversation_and_wait genie_api space_id question (world st))
      as [[m|e] w]; reflexivity.
Qed.

(** What a run of the body of the [try] leaves behind, whether it
    returns or raises: the resolved conversation id in the variable, the
    log as it was, and calls that begin with [first_call] and start no
    other conversation. *)
Lemma try_frame (question : string) (given : option string) (st : env) :
  fst (snd (ask_genie_try genie_api question space_id (given, st)))
  = resolved_id genie_api space_id question given st
  /\ logged (snd (snd (ask_genie_try genie_api question space_id (given, st))))
     = logged st
  /\ exists rest,
      calls (snd (snd (ask_genie_try genie_api question space_id (given, st))))
      = (calls st ++ first_call space_id question given :: rest)%list
      /\ existsb is_start rest = false.
Proof.
  rewrite ask_genie_try_unfold. unfold resolved_id, first_call.
  destruct given as [c|].
  - destruct (create_message_and_wait genie_api space_id c question (world st))
      as [[m|e] w]; simpl.
    + match goal with
      | |- context [answer _ _ _ (?cv, ?st1)] =>
          destruct (answer_quiet m cv st1) as (Hv & Hl & rest & Hcalls & Hrest)
      end.
      simpl in *. split; [exact Hv|]. split; [exact Hl|].
      exists rest. split; [|exact Hrest]. rewrite Hcalls, <- app_assoc. reflexivity.
    + repeat split. exists []. auto.
  - destruct (start_conversation_and_wait genie_api space_id question (world st))
      as [[m|e] w]; simpl.
    + match goal with
      | |- context [answer _ _ _ (?cv, ?st1)] =>
          destruct (answer_quiet m cv st1) as (Hv & Hl & rest & Hcalls & Hrest)
      end.
      simpl in *. split; [exact Hv|]. split; [exact Hl|].
      exists rest. split; [|exact Hrest]. rewrite Hcalls, <- app_assoc. reflexivity.
    + repeat split. exists []. auto.
Qed.

Lemma ask_genie_frame (question : string) (given : option string) (st : env) :
  snd (fst (ask_genie genie_api question space_id given st))
  = resolved_id genie_api space_id question given st
  /\ exists rest,
      calls (snd (ask_genie genie_api question space_id given st))
      = (calls st ++ first_call space_id question given :: rest)%list
      /\ existsb is_start rest = false.
Proof.
  destruct (try_frame question given st) as (Hv & _ & rest & Hcalls & Hrest).
  unfold ask_genie.
  destruct (ask_genie_try genie_api question space_id (given, st))
    as [[payload|e] [cv st']]; simpl in *; (split; [exact Hv | exists rest; auto]).
Qed.

(** C1: when a step of [ask_genie] raises, the answer is the fixed error
    payload, whatever the exception was, paired with the resolved
    conversation id: the one given, or else the one of the conversation
    just started, or else none.  The exception goes to the log only. *)
Theorem ask_genie_failure (question : string) (given : option string)
    (st : env) (e : exn) (final : option string * env) :
  ask_genie_try genie_api question space_id (given, st) = (Raise e, final) ->
  fst (ask_genie genie_api question space_id given st)
  = ([("error", PStr "An error occurred while processing your request.")],
     resolved_id genie_api space_id question given st)
  /\ logged (snd (ask_genie genie_api question space_id given st))
     = (logged st ++ [e])%list.
Proof.
  intros H.
  destruct (try_frame question given st) as (Hv & Hl & _).
  unfold ask_genie. rewrite H in *. destruct final as [cv st']. simpl in *.
  subst cv. rewrite Hl. split; reflexivity.
Qed.

Lemma on_message_frame (self : MyBot) (activity : Activity) (st : env) :
  self_after (on_message_activity genie_api space_id self activity st)
  = {| conversation_ids :=
         <[from_id activity :=
             snd (fst (ask_genie genie_api (activity_text activity) space_id
                         (registry_get self (from_id activity)) st))]>
           (conversation_ids self) |}
  /\ calls (env_after (on_message_activity genie_api space_id self activity st))
     = calls (snd (ask_genie genie_api (activity_text activity) space_id
                     (registry_get self (from_id activity)) st)).
Proof.
  unfold on_message_activity.
  destruct (ask_genie genie_api (activity_text activity) space_id
              (registry_get self (from_id activity)) st) as [[answer_json cid] st1].
  destruct (render (channel_id activity) answer_json) as [r errs].
  split; reflexivity.
Qed.

(** C2: every message stores the conversation id that [ask_genie]
    returned under the sender, whatever the payload; and when the first
    message of a user without a session came back with the id [T1], the
    second message of that user is sent with [create_message_and_wait]
    on [T1], and no conversation is started for it. *)
Theorem session_continuity (self : MyBot) (first second : Activity) (st st2 : env)
    (T1 : string) :
  conversation_ids (self_after (on_message_activity genie_api space_id self first st))
    !! from_id first
  = Some (snd (fst (ask_genie genie_api (activity_text first) space_id
                      (registry_get self (from_id first)) st)))
  /\ (registry_get self (from_id first) = None ->
      snd (fst (ask_genie genie_api (activity_text first) space_id None st)) = Some T1 ->
      from_id second = from_id first ->
      exists rest,
        calls (env_after
                 (on_message_activity genie_api space_id
                    (self_after (on_message_activity genie_api space_id self first st))
                    second st2))
        = (calls st2 ++ CreateMessage space_id T1 (activity_text second) :: rest)%list
        /\ existsb is_start rest = false).
Proof.
  destruct (on_message_frame self first st) as [Hself _].
  split.
  - rewrite Hself. apply lookup_insert_eq.
  - intros Hnone HT1 Hsame.
    destruct (on_message_frame
                (self_after (on_message_activity genie_api space_id self first st))
                second st2) as [_ Hcalls].
    rewrite Hcalls.
    assert (Hget : registry_get
                     (self_after (on_message_activity genie_api space_id self first st))
                     (from_id second) = Some T1).
    { unfold registry_get at 1. rewrite Hself, Hsame. simpl.
      rewrite lookup_insert_eq, Hnone. exact HT1. }
    rewrite Hget.
    destruct (ask_genie_frame (activity_text second) (Some T1) st2)
      as (_ & rest & Hc & Hrest).
    exists rest. split; [exact Hc | exact Hrest].
Qed.

(** C9: when the start of the conversation fails on the first message
    of a user without a session, [None] is stored under the user, the
    next lookup gives [None], and the next message of the user is
    handled exactly as if nothing had been stored: it starts a
    conversation. *)
Theorem failed_first_contact (self : MyBot) (first second : Activity) (st st2 : env)
    (e : exn) (w : World) :
  registry_get self (from_id first) = None ->
  start_conversation_and_wait genie_api space_id (activity_text first) (world st)
  = (Raise e, w) ->
  from_id second = from_id first ->
  conversation_ids (self_after (on_message_activity genie_api space_id self first st))
    !! from_id first = Some None
  /\ registry_get (self_after (on_message_activity genie_api space_id self first st))
                  (from_id first) = None
  /\ on_message_activity genie_api space_id
       (self_after (on_message_activity genie_api space_id self first st)) second st2
     = on_message_activity genie_api space_id self second st2
  /\ exists rest,
      calls (env_after
               (on_message_activity genie_api space_id
                  (self_after (on_message_activity genie_api space_id self first st))
                  second st2))
      = (calls st2 ++ StartConversation space_id (activity_text second) :: rest)%list.
Proof.
  intros Hnone Hfail Hsame.
  destruct (on_message_frame self first st) as [Hself _].
  destruct (ask_genie_frame (activity_text first) None st) as (Hres & _).
  rewrite Hnone in Hself. rewrite Hres in Hself.
  unfold resolved_id in Hself. rewrite Hfail in Hself. simpl in Hself.
  assert (Hget : registry_get
                   (self_after (on_message_activity genie_api space_id self first st))
                   (from_id first) = None).
  { unfold registry_get. rewrite Hself. simpl. rewrite lookup_insert_eq. reflexivity. }
  split; [rewrite Hself; apply lookup_insert_eq|].
  split; [exact Hget|].
  assert (Heq : on_message_activity genie_api space_id
                  (self_after (on_message_activity genie_api space_id self first st))
                  second st2
                = on_message_activity genie_api space_id self second st2).
  { unfold on_message_activity at 1 3. rewrite Hsame, Hget, Hnone.
    destruct (ask_genie genie_api (activity_text second) space_id None st2)
      as [[answer_json cid] st1].
    destruct (render (channel_id second) answer_json) as [r errs].
    rewrite Hself. simpl. rewrite insert_insert_eq. reflexivity. }
  split; [exact Heq|].
  rewrite Heq.
  destruct (on_message_frame self second st2) as [_ Hcalls].
  rewrite Hcalls, Hsame, Hnone.
  destruct (ask_genie_frame (activity_text second) None st2) as (_ & rest & Hc & _).
  exists rest. exact Hc.
Qed.

End Sessions.

(** The three theorems on the example back end. *)

Lemma ask_genie_failure_witness :
  fst (ask_genie Demo.api "late boom" "space" None Demo.start)
  = (error_payload, Some "T1")
  /\ fst (ask_genie Demo.api "boom" "space" None Demo.start) = (error_payload, None)
  /\ fst (ask_genie Demo.api "boom" "space" (Some "T7") Demo.start)
     = (error_payload, Some "T7").
Proof.
  split; [|split].
  - exact (proj1 (ask_genie_failure Demo.api "space" "late boom" None Demo.start
                    (BackendError "timed out") _ eq_refl)).
  - exact (proj1 (ask_genie_failure Demo.api "space" "boom" None Demo.start
                    (BackendError "connection reset") _ eq_refl)).
  - exact (proj1 (ask_genie_failure Demo.api "space" "boom" (Some "T7") Demo.start
                    (BackendError "connection reset") _ eq_refl)).
Defined.

Lemma session_continuity_witness :
  exists rest,
    calls (env_after
             (on_message_activity Demo.api "space"
                (self_after (on_message_activity Demo.api "space" Demo.fresh
                               (Demo.msg "U1" "how many orders today?" "slack")
                               Demo.start))
                (Demo.msg "U1" "and yesterday?" "slack") Demo.start))
    = ([] ++ CreateMessage "space" "T1" "and yesterday?" :: rest)%list
    /\ existsb is_start rest = false.
Proof.
  apply (proj2 (session_continuity Demo.api "space" Demo.fresh
                  (Demo.msg "U1" "how many orders today?" "slack")
                  (Demo.msg "U1" "and yesterday?" "slack") Demo.start Demo.start "T1"));
    reflexivity.
Defined.

Lemma failed_first_contact_witness :
  conversation_ids
    (self_after (on_message_activity Demo.api "space" Demo.fresh
                   (Demo.msg "U1" "boom" "slack") Demo.start)) !! "U1" = Some None.
Proof.
  apply (failed_first_contact Demo.api "space" Demo.fresh (Demo.msg "U1" "boom" "slack")
           (Demo.msg "U1" "hello" "slack") Demo.start Demo.start
           (BackendError "connection reset") 0);
    reflexivity.
Defined.

(** * Further properties *)

(** ** The runs of [ask_genie] *)

Section Runs.
Context {World : Type} (genie_api : GenieAPI World) (space_id : string).

Ltac split_run :=
  repeat (simpl;
    match goal with
    | |- context [get_message_query_result ?g ?a ?b ?c ?w] =>
        destruct (get_message_query_result g a b c w) as [[?|?] ?]
    | |- context [get_message ?g ?a ?b ?c ?w] =>
        destruct (get_message g a b c w) as [[?|?] ?]
    | |- context [get_statement ?g ?a ?w] =>
        destruct (get_statement g a w) as [[?|?] ?]
    | |- context [match query_result ?m with _ => _ end] => destruct (query_result m)
    | |- context [match statement_response ?m with _ => _ end] =>
        destruct (statement_response m)
    | |- context [match attachments ?m with _ => _ end] => destruct (attachments m)
    | |- context [match manifest_schema ?m with _ => _ end] =>
        destruct (manifest_schema m)
    | |- context [match result_data ?m with _ => _ end] => destruct (result_data m)
    | |- context [match first_text ?l with _ => _ end] => destruct (first_text l)
    end).

(** What the part of a run after the first call returns, if it returns. *)
Lemma answer_cases (initial_message : GenieMessage) (cv : option string) (st : env)
    (payload : pydict) :
  fst (answer genie_api space_id initial_message (cv, st)) = Ok payload ->
  (exists t, payload = [("message", PStr t)])
  \/ (exists columns data d,
        payload = [("columns", PDict columns); ("data", PDict data);
                   ("query_description", PStr d)]).
Proof.
  unfold answer, fetch_query_result, tabular_payload, message_payload,
    bind, invoke, ret, lift.
  split_run; intros H; try discriminate; injection H as <-; eauto 8.
Qed.

(** The calls that [answer] adds. *)
Lemma answer_calls (m : GenieMessage) (cv : option string) (st : env) :
  calls (snd (snd (answer genie_api space_id m (cv, st))))
  = (calls st
     ++ match query_result m with
        | None => [GetMessage space_id (conversation_id m) (id m)]
        | Some _ =>
            GetMessageQueryResult space_id (conversation_id m) (id m)
            :: match get_message_query_result genie_api space_id (conversation_id m) (id m)
                       (world st) with
               | (Raise _, _) => []
               | (Ok qr, w1) =>
                   GetMessage space_id (conversation_id m) (id m)
                   :: match get_message genie_api space_id (conversation_id m) (id m) w1,
                            statement_response qr with
                      | (Ok _, _), Some sr => [GetStatement (statement_id sr)]
                      | _, _ => []
                      end
               end
        end)%list.
Proof.
  unfold answer, fetch_query_result, tabular_payload, bind, invoke, ret, lift.
  destruct (query_result m) as [[]|]; cbn [fst snd world calls].
  - destruct (get_message_query_result genie_api space_id (conversation_id m) (id m)
                (world st)) as [[qr|e] w1]; cbn [fst snd world calls]; [|reflexivity].
    destruct (get_message genie_api space_id (conversation_id m) (id m) w1)
      as [[mc|e] w2]; cbn [fst snd world calls];
      [|destruct (statement_response qr); now rewrite <- app_assoc].
    destruct (statement_response qr) as [sr|]; cbn [fst snd world calls];
      [|now rewrite <- app_assoc].
    destruct (get_statement genie_api (statement_id sr) w2) as [[results|e] w3];
      cbn [fst snd world calls]; [|now rewrite <- !app_assoc].
    destruct (attachments mc); cbn [fst snd calls]; [|now rewrite <- !app_assoc].
    destruct (manifest_schema results); cbn [fst snd calls]; [|now rewrite <- !app_assoc].
    destruct (result_data results); cbn [fst snd calls]; now rewrite <- !app_assoc.
  - destruct (get_message genie_api space_id (conversation_id m) (id m) (world st))
      as [[mc|e] w2]; reflexivity.
Qed.

(** X1: the calls of a run, in their order.  After a first call that
    returned the reply [m], a reply without a query result is followed by
    the call for the message and nothing else.  A reply with a query
    result is followed by the call for the query result; if that returns,
    by the call for the message; and if that returns too and the query
    result has a statement, by the call for the statement.  All of them
    are made for the message and with the conversation id of the reply.
    When the first call raises, it is the only call and the payload is the
    error payload. *)
Theorem ask_genie_calls (question : string) (given : option string) (st : env) :
  (forall m w,
     first_reply genie_api space_id question given (world st) = (Ok m, w) ->
     calls (snd (ask_genie genie_api question space_id given st))
     = (calls st
        ++ first_call space_id question given
        :: match query_result m with
           | None => [GetMessage space_id (conversation_id m) (id m)]
           | Some _ =>
               GetMessageQueryResult space_id (conversation_id m) (id m)
               :: match get_message_query_result genie_api space_id
                          (conversation_id m) (id m) w with
                  | (Raise _, _) => []
                  | (Ok qr, w1) =>
                      GetMessage space_id (conversation_id m) (id m)
                      :: match get_message genie_api space_id (conversation_id m) (id m) w1,
                               statement_response qr with
                         | (Ok _, _), Some sr => [GetStatement (statement_id sr)]
                         | _, _ => []
                         end
                  end
           end)%list)
  /\ (forall e w,
       first_reply genie_api space_id question given (world st) = (Raise e, w) ->
       calls (snd (ask_genie genie_api question space_id given st))
       = (calls st ++ [first_call space_id question given])%list
       /\ fst (fst (ask_genie genie_api question space_id given st)) = error_payload).
Proof.
  unfold ask_genie, first_reply, first_call. rewrite ask_genie_try_unfold.
  split.
  - intros m w H.
    destruct given as [c|]; rewrite H; cbn [fst snd];
      match goal with
      | |- context [answer _ _ _ (?cv, ?st1)] =>
          pose proof (answer_calls m cv st1) as Hcalls;
          destruct (answer genie_api space_id m (cv, st1)) as [[p|e] [cv' st']]
      end; cbn [fst snd calls world] in *; rewrite Hcalls, <- app_assoc; reflexivity.
  - intros e w H. destruct given as [c|]; rewrite H; split; reflexivity.
Qed.

(** What the body of the [try] returns, when it returns. *)
Lemma try_payloads (question : string) (given : option string) (st : env)
    (payload : pydict) :
  fst (ask_genie_try genie_api question space_id (given, st)) = Ok payload ->
  (exists t, payload = [("message", PStr t)])
  \/ (exists columns data d,
        payload = [("columns", PDict columns); ("data", PDict data);
                   ("query_description", PStr d)]).
Proof.
  rewrite ask_genie_try_unfold. destruct given as [c|].
  - destruct (create_message_and_wait genie_api space_id c question (world st))
      as [[m|e] w]; cbn [fst snd]; [|discriminate].
    match goal with
    | |- context [answer _ _ _ (?cv, ?st1)] => apply (answer_cases m cv st1)
    end.
  - destruct (start_conversation_and_wait genie_api space_id question (world st))
      as [[m|e] w]; cbn [fst snd]; [|discriminate].
    match goal with
    | |- context [answer _ _ _ (?cv, ?st1)] => apply (answer_cases m cv st1)
    end.
Qed.

(** X2: The payload of a run is the error payload, or one message, or the
    three entries of a table with a dict for the columns and a dict for
    the data. *)
Theorem ask_genie_payload_shape (question : string) (given : option string) (st : env) :
  payload_shape (fst (fst (ask_genie genie_api question space_id given st))).
Proof.
  unfold payload_shape, ask_genie.
  pose proof (try_payloads question given st) as H.
  destruct (ask_genie_try genie_api question space_id (given, st))
    as [[payload|e] [cv st']]; cbn [fst snd] in *.
  - right. apply H. reflexivity.
  - left. reflexivity.
Qed.

(** X3: The conversation id a run returns, whether it returns a payload or
    the error payload: on a follow-up the id it was given, whatever
    conversation id the reply of the back end carries; on a start the
    conversation id of the reply, and [None] when the start raised. *)
Theorem ask_genie_conversation_id (question : string) (st : env) :
  (forall c, snd (fst (ask_genie genie_api question space_id (Some c) st)) = Some c)
  /\ (forall m w,
       start_conversation_and_wait genie_api space_id question (world st) = (Ok m, w) ->
       snd (fst (ask_genie genie_api question space_id None st))
       = Some (conversation_id m))
  /\ (forall e w,
       start_conversation_and_wait genie_api space_id question (world st) = (Raise e, w) ->
       snd (fst (ask_genie genie_api question space_id None st)) = None).
Proof.
  split; [|split].
  - intros c. now destruct (ask_genie_frame genie_api space_id question (Some c) st).
  - intros m w H. destruct (ask_genie_frame genie_api space_id question None st) as [-> _].
    unfold resolved_id. now rewrite H.
  - intros e w H. destruct (ask_genie_frame genie_api space_id question None st) as [-> _].
    unfold resolved_id. now rewrite H.
Qed.

End Runs.

Lemma ask_genie_calls_witness :
  calls (snd (ask_genie Demo.api "how many orders today?" "space" None Demo.start))
  = [StartConversation "space" "how many orders today?";
     GetMessageQueryResult "space" "T1" "m1"; GetMessage "space" "T1" "m1";
     GetStatement "s1"]
  /\ calls (snd (ask_genie Demo.api "hello" "space" (Some "T7") Demo.start))
     = [CreateMessage "space" "T7" "hello"; GetMessage "space" "T7" "m1"]
  /\ calls (snd (ask_genie Demo.api "late boom" "space" None Demo.start))
     = [StartConversation "space" "late boom"; GetMessage "space" "T1" "m0"]
  /\ calls (snd (ask_genie Demo.api "boom" "space" (Some "T1") Demo.start))
     = [CreateMessage "space" "T1" "boom"].
Proof.
  split; [|split; [|split]].
  - exact (proj1 (ask_genie_calls Demo.api "space" "how many orders today?" None
                    Demo.start) _ _ eq_refl).
  - exact (proj1 (ask_genie_calls Demo.api "space" "hello" (Some "T7") Demo.start)
             _ _ eq_refl).
  - exact (proj1 (ask_genie_calls Demo.api "space" "late boom" None Demo.start)
             _ _ eq_refl).
  - exact (proj1 (proj2 (ask_genie_calls Demo.api "space" "boom" (Some "T1") Demo.start)
                    _ _ eq_refl)).
Defined.

Lemma ask_genie_conversation_id_witness :
  snd (fst (ask_genie Demo.api "hello" "space" None Demo.start)) = Some "T1".
Proof.
  exact (proj1 (proj2 (ask_genie_conversation_id Demo.api "space" "hello" Demo.start))
           _ _ eq_refl).
Defined.

(** ** The two renderers on tables out of shape *)

(** X9: A result without the key [data_array], as a query without rows has
    it: [process_for_slack] tests for the key and answers with the note
    on the unexpected format, [process_query_results] does not test and
    raises; the exception is the [KeyError] of the missing key whenever
    the header could be written. *)
Theorem result_without_rows (answer_json c d : pydict) (cv : pyval) :
  dict_get answer_json "columns" = Some (PDict c) ->
  dict_get c "columns" = Some cv ->
  dict_get answer_json "data" = Some (PDict d) ->
  dict_get d "data_array" = None ->
  process_for_slack answer_json
  = Ok (slack_description answer_json
        ++ [section (PStr "Unexpected data format received.")])%list
  /\ (exists e, process_query_results answer_json = Raise e)
  /\ (forall cols, cv = PList cols -> names_are_text cols = true ->
      process_query_results answer_json = Raise KeyError).
Proof.
  intros Hc Hcv Hd Hda.
  assert (Hget : Py.getitem (PDict d) "data_array" = Raise KeyError).
  { simpl. now rewrite Hda. }
  split; [|split].
  - unfold process_for_slack. rewrite Hc, Hd, Hcv.
    rewrite (contains_dict_without d "data_array" Hda). reflexivity.
  - unfold process_query_results, plain_table. rewrite Hc, Hd, Hcv.
    destruct (Py.iter cv) as [cols|e]; [|now exists e]. cbn [mbind res_bind].
    destruct (mapM_res (fun col => Py.getitem col "name") cols) as [names|e];
      [|now exists e]. cbn [mbind res_bind].
    destruct (Py.join " | " names) as [joined|e]; [|now exists e]. cbn [mbind res_bind].
    rewrite Hget. now exists KeyError.
  - intros cols -> Hn.
    unfold process_query_results, plain_table. rewrite Hc, Hd, Hcv.
    cbn [Py.iter mbind res_bind].
    destruct (names_text_ok cols Hn) as [names ->]. cbn [mbind res_bind].
    unfold Py.join. rewrite items_of_texts. cbn [mbind res_bind].
    rewrite Hget. reflexivity.
Qed.

Lemma result_without_rows_witness :
  process_for_slack [("columns", PDict Demo.schema); ("data", PDict [("row_count", PInt 0)]);
                     ("query_description", PStr "")]
  = Ok [section (PStr "Unexpected data format received.")]
  /\ process_query_results
       [("columns", PDict Demo.schema); ("data", PDict [("row_count", PInt 0)]);
        ("query_description", PStr "")]
     = Raise KeyError.
Proof.
  destruct (result_without_rows
              [("columns", PDict Demo.schema); ("data", PDict [("row_count", PInt 0)]);
               ("query_description", PStr "")]
              Demo.schema [("row_count", PInt 0)]
              (PList [column "region" "STRING"; column "total" "DOUBLE"])
              eq_refl eq_refl eq_refl eq_refl) as (Hs & _ & Hp).
  split; [exact Hs | exact (Hp _ eq_refl eq_refl)].
Defined.

Lemma combine_firstn_cols {A B : Type} (values : list A) (cols : list B) :
  combine (firstn (length cols) values) cols = combine values cols.
Proof.
  revert cols. induction values as [|v values IH]; intros [|col cols]; simpl;
    try reflexivity. now rewrite IH.
Qed.

(** The cell loop of [process_for_slack] on a row with more values than
    there are columns: the values under a column are formatted, and the
    first value past the last column raises. *)
Lemma slack_cells_long (cols values : list pyval) (i : nat) (widths : list nat) :
  i <= length cols ->
  length cols < i + length values ->
  length widths = length cols ->
  is_ok (mapM_res (fun vc => plain_cell (fst vc) (snd vc)) (combine values (drop i cols)))
  = true ->
  slack_cells (PList cols) i values widths = Raise IndexError.
Proof.
  revert i widths. induction values as [|value rest IH]; intros i widths Hi Hlong Hw Hconv.
  - simpl in Hlong. lia.
  - simpl in Hlong. destruct (decide (i = length cols)) as [->|Hne].
    + cbn [slack_cells Py.getitem_int].
      rewrite (lookup_ge_None_2 cols (length cols)) by lia. reflexivity.
    + destruct (lookup_lt_is_Some_2 cols i) as [col Hcol]; [lia|].
      destruct (lookup_lt_is_Some_2 widths i) as [w Hwi]; [lia|].
      rewrite (drop_S cols col i Hcol) in Hconv.
      cbn [combine mapM_res fst snd] in Hconv.
      cbn [slack_cells Py.getitem_int]. rewrite Hcol. cbn [mbind res_bind].
      change (slack_cell value col) with (plain_cell value col).
      destruct (plain_cell value col) as [fv|e]; [|discriminate].
      cbn [mbind res_bind] in *. unfold width_at. rewrite Hwi. cbn [mbind res_bind].
      rewrite IH; [reflexivity | lia | lia | now rewrite length_insert |].
      destruct (mapM_res _ (combine rest (drop (S i) cols))); [reflexivity | discriminate].
Qed.

Lemma slack_rows_long (cols before after values : list pyval) (widths : list nat) :
  forallb (row_fits cols) before = true ->
  length cols < length values ->
  length widths = length cols ->
  cells_convert cols (before ++ PList values :: after) = true ->
  slack_rows (PList cols) (before ++ PList values :: after) widths = Raise IndexError.
Proof.
  revert widths. induction before as [|row before IH]; intros widths Hfit Hlong Hw Hconv.
  - cbn [app slack_rows Py.iter mbind res_bind].
    rewrite slack_cells_long; [reflexivity | lia | simpl; lia | exact Hw |].
    rewrite drop_0. unfold cells_convert in Hconv. simpl in Hconv.
    apply andb_prop in Hconv as [Hrow _]. exact Hrow.
  - simpl in Hfit. apply andb_prop in Hfit as [Hrow Hrows].
    unfold cells_convert in Hconv. cbn [app forallb] in Hconv.
    apply andb_prop in Hconv as [Hthis Hrest].
    destruct row as [ | | | | |vals| ]; try discriminate.
    simpl in Hrow. apply Nat.eqb_eq in Hrow.
    cbn [app slack_rows Py.iter mbind res_bind].
    rewrite slack_cells_eq by lia. rewrite drop_0.
    rewrite plain_cells_list in Hthis.
    destruct (mapM_res _ (combine vals cols)) as [cells|e]; [|discriminate].
    cbn [mbind res_bind fst snd].
    rewrite IH; [reflexivity | exact Hrows | exact Hlong | now rewrite bump_length
                | exact Hrest].
Qed.

(** X10: A row with more values than there are columns, after rows that fit:
    [process_query_results] returns, and writes the row as if the values
    past the last column were not there; [process_for_slack] raises an
    [IndexError] on the first of these values. *)
Theorem row_longer_than_columns (answer_json c : pydict)
    (cols before after values : list pyval) :
  dict_get answer_json "columns" = Some (PDict c) ->
  dict_get c "columns" = Some (PList cols) ->
  dict_get answer_json "data"
  = Some (PDict [("data_array", PList (before ++ PList values :: after))]) ->
  names_are_text cols = true ->
  cells_convert cols (before ++ PList values :: after) = true ->
  forallb (row_fits cols) before = true ->
  length cols < length values ->
  process_for_slack answer_json = Raise IndexError
  /\ (exists out, process_query_results answer_json = Ok out)
  /\ plain_row cols (PList values) = plain_row cols (PList (firstn (length cols) values)).
Proof.
  intros Hc Hcv Hd Hn Hconv Hfit Hlong.
  split; [|split].
  - unfold process_for_slack. rewrite Hc, Hd, Hcv.
    cbn [Py.contains dict_has dict_get]. simpl String.eqb. cbn [mbind res_bind].
    unfold slack_table. cbn [Py.iter mbind res_bind].
    destruct (names_text_ok cols Hn) as [names En]. rewrite En. cbn [mbind res_bind].
    rewrite len_of_texts. cbn [mbind res_bind]. simpl Py.getitem.
    cbn [Py.iter mbind res_bind].
    rewrite slack_rows_long; [reflexivity | exact Hfit | exact Hlong | | exact Hconv].
    apply mapM_res_length in En. rewrite !length_map in *. exact En.
  - unfold process_query_results. rewrite Hc, Hd, Hcv.
    destruct (plain_table_total cols (before ++ PList values :: after)
                (PDict [("data_array", PList (before ++ PList values :: after))])
                eq_refl Hn Hconv) as [t ->].
    cbn [mbind res_bind]. eauto.
  - unfold plain_row. rewrite !plain_cells_list, combine_firstn_cols. reflexivity.
Qed.

Lemma row_longer_than_columns_witness :
  process_for_slack (table_payload [column "region" "STRING"]
                       [PList [PStr "north"; PStr "stray"]])
  = Raise IndexError
  /\ process_query_results (table_payload [column "region" "STRING"]
                              [PList [PStr "north"; PStr "stray"]])
     = Ok ("## Query Results" ++ NL ++ NL ++ "| region |" ++ NL ++ "|---|" ++ NL
           ++ "| north |" ++ NL).
Proof.
  split; [|vm_compute; reflexivity].
  apply (row_longer_than_columns
           (table_payload [column "region" "STRING"] [PList [PStr "north"; PStr "stray"]])
           [("columns", PList [column "region" "STRING"])]
           [column "region" "STRING"] [] [] [PStr "north"; PStr "stray"]);
    try reflexivity.
  simpl. lia.
Defined.

(** ** The table in blocks: the lines *)

Lemma concat_length (sep : string) (l : list string) :
  String.length (String.concat sep l)
  = list_sum (map String.length l) + String.length sep * (length l - 1).
Proof.
  induction l as [|x [|y l] IH].
  - simpl. lia.
  - simpl. lia.
  - change (String.concat sep (x :: y :: l)) with (x ++ sep ++ String.concat sep (y :: l)).
    rewrite !length_app, IH. simpl. lia.
Qed.

Lemma padded_lengths (row : list string) (widths : list nat) :
  Forall2 (fun cell w => String.length (PyStr.ljust cell w) = w) row widths ->
  map String.length (pad_row widths row) = widths.
Proof.
  unfold pad_row. induction 1 as [|cell w row widths H _ IH]; simpl; [reflexivity|].
  now rewrite H, IH.
Qed.

Lemma padded_line_length (row : list string) (widths : list nat) :
  Forall2 (fun cell w => String.length (PyStr.ljust cell w) = w) row widths ->
  String.length (PyStr.join " | " (pad_row widths row)) = line_width widths.
Proof.
  intros H. unfold PyStr.join, line_width.
  rewrite concat_length, (padded_lengths row widths H).
  replace (length (pad_row widths row)) with (length widths); [reflexivity|].
  rewrite <- (padded_lengths row widths H) at 1. now rewrite length_map.
Qed.

Lemma separator_length (widths : list nat) :
  String.length (PyStr.join "-+-" (map (PyStr.repeat_char "-") widths)) = line_width widths.
Proof.
  unfold PyStr.join, line_width. rewrite concat_length, !length_map.
  replace (map String.length (map (PyStr.repeat_char "-") widths)) with widths;
    [reflexivity|].
  induction widths as [|w widths IH]; simpl; [reflexivity|].
  now rewrite repeat_char_length, <- IH.
Qed.

Lemma lines_length (lines : list string) (n : nat) :
  Forall (fun l => String.length l = n) lines ->
  String.length (String.concat "" (map (fun l => l ++ NL) lines)) = length lines * (n + 1).
Proof.
  induction 1 as [|l lines Hl _ IH]; [reflexivity|].
  cbn [map]. rewrite concat_empty_cons, !length_app, IH, Hl. simpl. lia.
Qed.

Lemma padded_one_line (widths : list nat) (row : list string) :
  forallb (free_of "010") row = true ->
  free_of "010" (PyStr.join " | " (pad_row widths row)) = true.
Proof.
  intros H. unfold PyStr.join. apply free_of_join; [reflexivity|].
  unfold pad_row. apply forallb_Forall_true in H. revert widths.
  induction H as [|cell row Hcell _ IH]; intros [|w widths]; cbn; constructor.
  - unfold PyStr.ljust. rewrite free_of_app, Hcell. now apply free_of_repeat.
  - apply IH.
Qed.

Lemma separator_one_line (widths : list nat) :
  free_of "010" (PyStr.join "-+-" (map (PyStr.repeat_char "-") widths)) = true.
Proof.
  unfold PyStr.join. apply free_of_join; [reflexivity|].
  apply Forall_map. apply Forall_forall. intros w _. now apply free_of_repeat.
Qed.

(** X11: the table of [process_for_slack] is aligned: when every row
    has one value per column and no name and no formatted cell has a
    newline in it, the table is returned and its lines, the header, the
    separator and one line per row, are all of one and the same length,
    the sum of the column widths and three characters between two
    columns; so the table of [n] rows is [(n + 2) * (length + 1)]
    characters long. *)
Theorem slack_lines_aligned (cols rows : list pyval) (data : pyval)
    (names : list string) (cells : list (list string)) :
  Py.getitem data "data_array" = Ok (PList rows) ->
  forallb (row_fits cols) rows = true ->
  mapM_res (fun col => Py.getitem col "name") cols = Ok (map PStr names) ->
  mapM_res (fun row => plain_cells row cols) rows = Ok cells ->
  forallb (free_of "010") names = true ->
  forallb (forallb (free_of "010")) cells = true ->
  exists t,
    slack_table (PList cols) data = Ok t
    /\ length (text_lines t) = 2 + length rows
    /\ Forall (fun line => String.length line = line_width (spec_widths names cells))
              (text_lines t)
    /\ length (spec_widths names cells) = length cols
    /\ String.length t = (2 + length rows) * (line_width (spec_widths names cells) + 1).
Proof.
  intros Hda Hfit Hn Ec Hnames Hclean.
  rewrite (slack_table_eq cols rows data names Hda Hfit Hn), Ec. cbn [mbind res_bind].
  eexists. split; [reflexivity|].
  assert (Hlen : length names = length cols).
  { apply mapM_res_length in Hn. now rewrite length_map in Hn. }
  assert (Hcells : Forall (fun r => length r = length names) cells).
  { eapply Forall_impl; [apply (formatted_rows_fit cols rows cells Hfit Ec)|].
    intros r Hr. simpl in Hr. lia. }
  destruct (spec_widths_cover names cells Hcells) as [Hhead Hrows].
  set (widths := spec_widths names cells) in *.
  set (lines := PyStr.join " | " (pad_row widths names)
                :: PyStr.join "-+-" (map (PyStr.repeat_char "-") widths)
                :: map (fun row => PyStr.join " | " (pad_row widths row)) cells).
  assert (Hall : Forall (fun l => String.length l = line_width widths) lines).
  { constructor; [now apply padded_line_length|].
    constructor; [apply separator_length|].
    apply Forall_map. eapply Forall_impl; [exact Hrows|].
    intros row Hrow. now apply padded_line_length. }
  assert (Hone : Forall (fun l => free_of "010" l = true) lines).
  { constructor; [now apply padded_one_line|].
    constructor; [apply separator_one_line|].
    apply Forall_map. eapply Forall_impl; [apply forallb_Forall_true, Hclean|].
    intros row Hrow. now apply padded_one_line. }
  assert (Hcount : length lines = 2 + length rows).
  { unfold lines. simpl. rewrite length_map. apply mapM_res_length in Ec. now rewrite Ec. }
  assert (Htext : slack_text names cells widths
                  = String.concat "" (map (fun l => l ++ NL) lines)).
  { unfold slack_text, lines. cbn [map]. rewrite !concat_empty_cons, !app_assoc_str.
    rewrite map_map. reflexivity. }
  rewrite Htext, (text_lines_concat lines Hone).
  split; [exact Hcount|]. split; [exact Hall|].
  split; [unfold widths, spec_widths; now rewrite length_imap|].
  rewrite (lines_length lines (line_width widths) Hall), Hcount. reflexivity.
Qed.

Lemma slack_lines_aligned_witness :
  exists t,
    slack_table (PList [column "region" "STRING"; column "total" "DOUBLE"])
                (PDict Demo.rows) = Ok t
    /\ length (text_lines t) = 4
    /\ Forall (fun line => String.length line = 21) (text_lines t)
    /\ String.length t = 88.
Proof.
  destruct (slack_lines_aligned [column "region" "STRING"; column "total" "DOUBLE"]
              [PList [PStr "north"; PStr "1234567.5"]; PList [PStr "south"; PNone]]
              (PDict Demo.rows) ["region"; "total"]
              [["north"; "1,234,567.50"]; ["south"; "NULL"]]
              eq_refl eq_refl eq_refl eq_refl eq_refl eq_refl)
    as (t & Ht & Hcount & Hall & _ & Hlen).
  exists t. split; [exact Ht|]. split; [exact Hcount|]. split; [exact Hall|]. exact Hlen.
Defined.

(** ** One message through the bot *)

Section Bot.
Context {World : Type} (genie_api : GenieAPI World) (space_id : string).

(** X6: When a call to the back end raises, the sender is not told of an
    error: the error payload has none of the keys the renderers read, so
    the reply is the text for no data, on every channel, and the only
    exception logged is the one of the back end. *)
Theorem backend_failure_reply (self : MyBot) (activity : Activity) (st : env) (e : exn)
    (final : option string * env) :
  ask_genie_try genie_api (activity_text activity) space_id
    (registry_get self (from_id activity), st) = (Raise e, final) ->
  sent (on_message_activity genie_api space_id self activity st)
  = (if String.eqb (channel_id activity) "slack"
     then ReplyAttachments [section (PStr "No data available.")]
     else ReplyText ("No data available." ++ NL ++ NL))
  /\ logged (env_after (on_message_activity genie_api space_id self activity st))
     = (logged st ++ [e])%list.
Proof.
  intros H.
  destruct (try_frame genie_api space_id (activity_text activity)
              (registry_get self (from_id activity)) st) as (_ & Hl & _).
  unfold on_message_activity, ask_genie. rewrite H in *. destruct final as [cv st'].
  simpl in Hl. unfold render.
  destruct (String.eqb (channel_id activity) "slack"); simpl;
    rewrite Hl, app_nil_r; split; reflexivity.
Qed.

(** X7: When the renderer of the channel raises on the answer, the sender
    gets the fixed text of a failure and the exception is logged; the
    conversation id of the answer is stored under the sender all the
    same, because it is stored before the answer is rendered. *)
Theorem render_failure_reply (self : MyBot) (activity : Activity) (st : env) (e : exn) :
  (if String.eqb (channel_id activity) "slack"
   then process_for_slack
          (fst (fst (ask_genie genie_api (activity_text activity) space_id
                       (registry_get self (from_id activity)) st))) = Raise e
   else process_query_results
          (fst (fst (ask_genie genie_api (activity_text activity) space_id
                       (registry_get self (from_id activity)) st))) = Raise e) ->
  sent (on_message_activity genie_api space_id self activity st)
  = ReplyText "An error occurred while processing your request."
  /\ conversation_ids (self_after (on_message_activity genie_api space_id self activity st))
       !! from_id activity
     = Some (snd (fst (ask_genie genie_api (activity_text activity) space_id
                         (registry_get self (from_id activity)) st)))
  /\ logged (env_after (on_message_activity genie_api space_id self activity st))
     = (logged (snd (ask_genie genie_api (activity_text activity) space_id
                       (registry_get self (from_id activity)) st)) ++ [e])%list.
Proof.
  unfold on_message_activity, render.
  destruct (ask_genie genie_api (activity_text activity) space_id
              (registry_get self (from_id activity)) st) as [[answer_json cid] st1].
  cbn [fst snd].
  destruct (String.eqb (channel_id activity) "slack"); intros ->; cbn;
    (split; [reflexivity|]); (split; [apply lookup_insert_eq | reflexivity]).
Qed.

(** X8: On a payload of [ask_genie] a renderer raises from within the table
    only: the payload then is a table whose [columns] has the key
    [columns], and the exception is the one of the table; for
    [process_for_slack] the result has the key [data_array] as well.  The
    test of [process_for_slack] for the key never raises on such a
    payload, since its [data] is a dict. *)
Theorem own_payload_render (question : string) (given : option string) (st : env)
    (e : exn) :
  (process_for_slack (fst (fst (ask_genie genie_api question space_id given st)))
   = Raise e ->
   exists columns data d cv,
     fst (fst (ask_genie genie_api question space_id given st))
     = [("columns", PDict columns); ("data", PDict data); ("query_description", PStr d)]
     /\ dict_get columns "columns" = Some cv
     /\ dict_has data "data_array" = true
     /\ slack_table cv (PDict data) = Raise e)
  /\ (process_query_results (fst (fst (ask_genie genie_api question space_id given st)))
      = Raise e ->
      exists columns data d cv,
        fst (fst (ask_genie genie_api question space_id given st))
        = [("columns", PDict columns); ("data", PDict data); ("query_description", PStr d)]
        /\ dict_get columns "columns" = Some cv
        /\ plain_table cv (PDict data) = Raise e).
Proof.
  assert (Hshape : payload_shape
                     (fst (fst (ask_genie genie_api question space_id given st)))).
  { unfold payload_shape, ask_genie.
    pose proof (try_payloads genie_api space_id question given st) as H.
    destruct (ask_genie_try genie_api question space_id (given, st))
      as [[payload|e'] [cv st']]; cbn [fst snd] in *; [right; now apply H | now left]. }
  destruct Hshape as [->|[[t ->]|(columns & data & d & ->)]].
  - split; intros H; discriminate H.
  - split; intros H; discriminate H.
  - split; intros H.
    + unfold process_for_slack in H. cbn [dict_get] in H. simpl String.eqb in H.
      cbn iota in H.
      destruct (dict_get columns "columns") as [cv|] eqn:Ecv; [|discriminate].
      cbn [Py.contains mbind res_bind] in H.
      destruct (dict_has data "data_array") eqn:Eda; [|discriminate].
      destruct (slack_table cv (PDict data)) as [table_str|e'] eqn:Et; [discriminate|].
      cbn [mbind res_bind] in H. injection H as <-.
      exists columns, data, d, cv. auto.
    + unfold process_query_results in H. cbn [dict_get] in H. simpl String.eqb in H.
      cbn iota in H.
      destruct (dict_get columns "columns") as [cv|] eqn:Ecv; [|discriminate].
      destruct (plain_table cv (PDict data)) as [table_str|e'] eqn:Et; [discriminate|].
      cbn [mbind res_bind] in H. injection H as <-.
      exists columns, data, d, cv. auto.
Qed.

(** *** Messages one after the other *)

Lemma turns_cons (self : MyBot) (activity : Activity) (rest : list Activity) (st : env) :
  turns genie_api space_id self (activity :: rest) st
  = (fst (fst (turns genie_api space_id
                 (self_after (on_message_activity genie_api space_id self activity st))
                 rest
                 (env_after (on_message_activity genie_api space_id self activity st)))),
     snd (fst (turns genie_api space_id
                 (self_after (on_message_activity genie_api space_id self activity st))
                 rest
                 (env_after (on_message_activity genie_api space_id self activity st)))),
     sent (on_message_activity genie_api space_id self activity st)
     :: snd (turns genie_api space_id
               (self_after (on_message_activity genie_api space_id self activity st))
               rest
               (env_after (on_message_activity genie_api space_id self activity st)))).
Proof.
  cbn [turns].
  destruct (turns genie_api space_id
              (self_after (on_message_activity genie_api space_id self activity st)) rest
              (env_after (on_message_activity genie_api space_id self activity st)))
    as [[self' st'] replies].
  reflexivity.
Qed.

Lemma turn_keeps (self : MyBot) (activity : Activity) (st : env) (user c : string) :
  registry_get self user = Some c ->
  registry_get (self_after (on_message_activity genie_api space_id self activity st)) user
  = Some c.
Proof.
  intros H. destruct (on_message_frame genie_api space_id self activity st) as [Hs _].
  unfold registry_get at 1. rewrite Hs. cbn [conversation_ids].
  destruct (decide (from_id activity = user)) as [->|Hne].
  - rewrite lookup_insert_eq, H.
    now destruct (ask_genie_frame genie_api space_id (activity_text activity) (Some c) st)
      as [-> _].
  - rewrite lookup_insert_ne by exact Hne. exact H.
Qed.

Lemma turn_calls (self : MyBot) (activity : Activity) (st : env) :
  registry_get self (from_id activity) <> None ->
  exists rest,
    calls (env_after (on_message_activity genie_api space_id self activity st))
    = (calls st ++ rest)%list
    /\ existsb is_start rest = false.
Proof.
  intros H. destruct (on_message_frame genie_api space_id self activity st) as [_ ->].
  destruct (registry_get self (from_id activity)) as [c|]; [|contradiction].
  destruct (ask_genie_frame genie_api space_id (activity_text activity) (Some c) st)
    as (_ & rest & -> & Hrest).
  exists (CreateMessage space_id c (activity_text activity) :: rest). split; [reflexivity|].
  exact Hrest.
Qed.

(** X12: A conversation, once stored under a user, stays: whatever messages
    follow, from this user or from others, and whether the back end
    answers them or fails, the registry holds the same conversation id
    under the user after them. *)
Theorem session_is_kept (self : MyBot) (activities : list Activity) (st : env)
    (user c : string) :
  registry_get self user = Some c ->
  registry_get (fst (fst (turns genie_api space_id self activities st))) user = Some c.
Proof.
  revert self st. induction activities as [|activity rest IH]; intros self st H.
  - exact H.
  - rewrite turns_cons. cbn [fst]. apply IH. now apply turn_keeps.
Qed.

(** X13: The messages of other users leave the entry of a user alone, be it a
    conversation id, a stored [None] or no entry at all. *)
Theorem silent_user_untouched (self : MyBot) (activities : list Activity) (st : env)
    (user : string) :
  (forall activity, In activity activities -> from_id activity <> user) ->
  conversation_ids (fst (fst (turns genie_api space_id self activities st))) !! user
  = conversation_ids self !! user.
Proof.
  revert self st. induction activities as [|activity rest IH]; intros self st H.
  - reflexivity.
  - rewrite turns_cons. cbn [fst]. rewrite IH by (intros a Ha; apply H; now right).
    destruct (on_message_frame genie_api space_id self activity st) as [-> _].
    cbn [conversation_ids]. apply lookup_insert_ne. apply H. now left.
Qed.

(** X14: Messages of users who all have a conversation start no conversation:
    the calls they add to the calls made before hold no
    [start_conversation_and_wait]. *)
Theorem known_users_start_nothing (self : MyBot) (activities : list Activity) (st : env) :
  (forall activity, In activity activities ->
     registry_get self (from_id activity) <> None) ->
  exists rest,
    calls (snd (fst (turns genie_api space_id self activities st)))
    = (calls st ++ rest)%list
    /\ existsb is_start rest = false.
Proof.
  revert self st. induction activities as [|activity more IH]; intros self st H.
  - exists []. split; [now rewrite app_nil_r | reflexivity].
  - rewrite turns_cons. cbn [fst snd].
    destruct (turn_calls self activity st) as (r1 & Hc1 & Hs1); [apply H; now left|].
    destruct (IH (self_after (on_message_activity genie_api space_id self activity st))
                 (env_after (on_message_activity genie_api space_id self activity st)))
      as (r2 & Hc2 & Hs2).
    { intros a Ha. specialize (H a (or_intror Ha)).
      destruct (registry_get self (from_id a)) as [c|] eqn:E; [|contradiction].
      now rewrite (turn_keeps self activity st (from_id a) c E). }
    exists (r1 ++ r2)%list. split.
    + rewrite Hc2, Hc1, app_assoc. reflexivity.
    + rewrite existsb_app, Hs1, Hs2. reflexivity.
Qed.

(** X18: The registry has an entry for a user after some messages exactly
    when it had one before or the user sent one of the messages: an entry
    is made for every sender, whatever became of the message, and no entry
    is ever taken out. *)
Theorem registry_entries (self : MyBot) (activities : list Activity) (st : env)
    (user : string) :
  is_Some (conversation_ids (fst (fst (turns genie_api space_id self activities st)))
             !! user)
  <-> is_Some (conversation_ids self !! user) \/ In user (map from_id activities).
Proof.
  revert self st. induction activities as [|activity rest IH]; intros self st.
  - cbn [turns fst map]. split; [now left | now intros [H|[]]].
  - rewrite turns_cons. cbn [fst map]. rewrite IH.
    destruct (on_message_frame genie_api space_id self activity st) as [-> _].
    cbn [conversation_ids]. rewrite lookup_insert_is_Some.
    destruct (decide (from_id activity = user)) as [Heq|Hne].
    + split; [intros _; right; now left | intros _; left; now left].
    + split.
      * intros [[H|[_ H]]|H]; [contradiction | now left | right; now right].
      * intros [H|[H|H]]; [left; right; now split | contradiction | now right].
Qed.

End Bot.

Lemma backend_failure_reply_witness :
  sent (on_message_activity Demo.api "space" Demo.fresh (Demo.msg "U1" "boom" "msteams")
          Demo.start)
  = ReplyText ("No data available." ++ NL ++ NL)
  /\ sent (on_message_activity Demo.api "space" Demo.fresh
             (Demo.msg "U1" "late boom" "slack") Demo.start)
     = ReplyAttachments [section (PStr "No data available.")].
Proof.
  split.
  - exact (proj1 (backend_failure_reply Demo.api "space" Demo.fresh
                    (Demo.msg "U1" "boom" "msteams") Demo.start
                    (BackendError "connection reset") _ eq_refl)).
  - exact (proj1 (backend_failure_reply Demo.api "space" Demo.fresh
                    (Demo.msg "U1" "late boom" "slack") Demo.start
                    (BackendError "timed out") _ eq_refl)).
Defined.

Lemma render_failure_reply_witness :
  sent (on_message_activity NoRows.api "space" Demo.fresh
          (Demo.msg "U1" "how many orders today?" "msteams") Demo.start)
  = ReplyText "An error occurred while processing your request."
  /\ conversation_ids
       (self_after (on_message_activity NoRows.api "space" Demo.fresh
                      (Demo.msg "U1" "how many orders today?" "msteams") Demo.start))
       !! "U1"
     = Some (Some "T1").
Proof.
  destruct (render_failure_reply NoRows.api "space" Demo.fresh
              (Demo.msg "U1" "how many orders today?" "msteams") Demo.start KeyError
              eq_refl) as (Hsent & Hid & _).
  split; [exact Hsent | exact Hid].
Defined.

Lemma own_payload_render_witness :
  exists columns data d cv,
    fst (fst (ask_genie NoRows.api "how many orders today?" "space" None Demo.start))
    = [("columns", PDict columns); ("data", PDict data); ("query_description", PStr d)]
    /\ dict_get columns "columns" = Some cv
    /\ plain_table cv (PDict data) = Raise KeyError.
Proof.
  exact (proj2 (own_payload_render NoRows.api "space" "how many orders today?" None
                  Demo.start KeyError) eq_refl).
Defined.

Lemma session_is_kept_witness :
  registry_get
    (fst (fst (turns Demo.api "space"
                 {| conversation_ids := {["U1" := Some "T7"]} |}
                 [Demo.msg "U1" "boom" "slack"; Demo.msg "U2" "hello" "slack";
                  Demo.msg "U1" "late boom" "msteams"]
                 Demo.start))) "U1"
  = Some "T7".
Proof.
  apply (session_is_kept Demo.api "space"). reflexivity.
Defined.

Lemma silent_user_untouched_witness :
  conversation_ids
    (fst (fst (turns Demo.api "space"
                 {| conversation_ids := {["U1" := None]} |}
                 [Demo.msg "U2" "hello" "slack"; Demo.msg "U3" "boom" "msteams"]
                 Demo.start))) !! "U1"
  = Some None.
Proof.
  rewrite (silent_user_untouched Demo.api "space"); [reflexivity|].
  intros activity [<-|[<-|[]]]; discriminate.
Defined.

Lemma known_users_start_nothing_witness :
  exists rest,
    calls (snd (fst (turns Demo.api "space"
                       {| conversation_ids := {["U1" := Some "T7"]} |}
                       [Demo.msg "U1" "hello" "slack"; Demo.msg "U1" "boom" "slack"]
                       Demo.start)))
    = ([] ++ rest)%list
    /\ existsb is_start rest = false.
Proof.
  apply (known_users_start_nothing Demo.api "space").
  intros activity [<-|[<-|[]]]; discriminate.
Defined.

(** ** New members *)

(** X15: The members added are welcomed one by one, the bot itself left out:
    as many replies are sent as there are members whose id is not the id
    of the recipient of the activity, every one the same text, and the
    replies for two batches of members are the replies for the one
    followed by the replies for the other. *)
Theorem welcome_members (members_added more : list ChannelAccount)
    (recipient : ChannelAccount) :
  on_members_added_activity members_added recipient
  = repeat (ReplyText "Welcome to the Databricks Genie Bot!")
      (length (List.filter
                 (fun member =>
                    negb (String.eqb (account_id member) (account_id recipient)))
                 members_added))
  /\ length (on_members_added_activity members_added recipient) <= length members_added
  /\ on_members_added_activity (members_added ++ more) recipient
     = (on_members_added_activity members_added recipient
        ++ on_members_added_activity more recipient)%list.
Proof.
  split; [|split].
  - induction members_added as [|member rest IH]; [reflexivity|].
    cbn [on_members_added_activity List.filter].
    destruct (String.eqb (account_id member) (account_id recipient)); cbn [negb].
    + exact IH.
    + cbn [length repeat]. now rewrite IH.
  - induction members_added as [|member rest IH]; [reflexivity|].
    cbn [on_members_added_activity].
    destruct (String.eqb (account_id member) (account_id recipient)); simpl; lia.
  - induction members_added as [|member rest IH]; [reflexivity|].
    cbn [on_members_added_activity app].
    destruct (String.eqb (account_id member) (account_id recipient)); [exact IH|].
    cbn [app]. now rewrite IH.
Qed.

(** ** The endpoint *)

Lemma substring_prefix (sub post : string) :
  String.substring 0 (String.length sub) (sub ++ post) = sub.
Proof.
  induction sub as [|c sub IH]; [now destruct post|].
  rewrite app_cons. simpl. now rewrite IH.
Qed.

Lemma substring_skip (pre s : string) (m : nat) :
  String.substring (String.length pre) m (pre ++ s) = String.substring 0 m s.
Proof.
  induction pre as [|c pre IH]; [reflexivity|].
  rewrite app_cons. simpl. exact IH.
Qed.

(** [sub in s] holds of every [s] that has [sub] somewhere in it. *)
Lemma contains_infix (sub pre post : string) :
  sub <> "" -> PyStr.contains sub (pre ++ sub ++ post) = true.
Proof.
  intros Hsub. unfold PyStr.contains.
  destruct (String.index 0 sub (pre ++ sub ++ post)) eqn:E; [reflexivity|].
  exfalso.
  apply (String.index_correct3 0 (String.length pre) sub (pre ++ sub ++ post) E Hsub);
    [lia|].
  now rewrite substring_skip, substring_prefix.
Qed.

Section Served.
Context {World A : Type}.
Context (deserialize : pyval -> res A)
        (process_activity : A -> string -> World -> res (option InvokeResponse) * World).

(** X16: a request whose [Content-Type] does not have the text
    [application/json] in it is answered with the status 415 and no body;
    it is not read, nothing is handed to the adapter, nothing is logged
    and the world stays as it was.  An answer with the status 415 is
    either this one, or the response of the adapter, which carries this
    status, passed on with its body.  The test is one for the text
    anywhere in the header: a content type with a parameter after it, or
    with anything before it, passes, and the activity read from the body
    is handed to the adapter. *)
Theorem unsupported_media_type (req : Request) (w : World) :
  (forall ct,
     content_type req = Some ct ->
     PyStr.contains "application/json" ct = false ->
     answered (messages deserialize process_activity req w) = Ok (PlainResponse 415)
     /\ handed (messages deserialize process_activity req w) = []
     /\ world_after (messages deserialize process_activity req w) = w
     /\ errors (messages deserialize process_activity req w) = [])
  /\ (forall resp,
        answered (messages deserialize process_activity req w) = Ok resp ->
        status_of resp = 415 ->
        (resp = PlainResponse 415
         /\ exists ct, content_type req = Some ct
                       /\ PyStr.contains "application/json" ct = false)
        \/ (exists activity auth_header r w',
              handed (messages deserialize process_activity req w)
              = [(activity, auth_header)]
              /\ process_activity activity auth_header w = (Ok (Some r), w')
              /\ invoke_status r = 415
              /\ resp = JsonResponse (invoke_body r) 415))
  /\ (forall pre post,
        content_type req = Some (pre ++ "application/json" ++ post) ->
        answered (messages deserialize process_activity req w) <> Ok (PlainResponse 415)
        /\ forall body activity,
             json_body req = Ok body ->
             deserialize body = Ok activity ->
             handed (messages deserialize process_activity req w)
             = [(activity, default "" (authorization req))]).
Proof.
  split; [|split].
  - intros ct Hct Hno. unfold messages. rewrite Hct, Hno. repeat split.
  - intros resp Hresp Hstatus. unfold messages in *.
    destruct (content_type req) as [ct|]; [|discriminate].
    destruct (PyStr.contains "application/json" ct) eqn:E.
    + right.
      destruct (json_body req) as [body|e]; [|discriminate].
      destruct (deserialize body) as [activity|e]; [|discriminate].
      destruct (process_activity activity
                  match authorization req with Some a => a | None => "" end w)
        as [[[r|]|e] w'] eqn:Ep; cbn in Hresp; injection Hresp as <-;
        cbn in Hstatus; try discriminate.
      exists activity, (match authorization req with Some a => a | None => "" end), r, w'.
      rewrite Hstatus. cbn. auto.
    + left. cbn in Hresp. injection Hresp as <-. split; [reflexivity|]. eauto.
  - intros pre post Hct.
    assert (Hyes : PyStr.contains "application/json" (pre ++ "application/json" ++ post)
                   = true) by (apply contains_infix; discriminate).
    unfold messages. rewrite Hct, Hyes. split.
    + destruct (json_body req) as [body|e]; [|discriminate].
      destruct (deserialize body) as [activity|e]; [|discriminate].
      destruct (process_activity activity _ w) as [[[r|]|e] w']; discriminate.
    + intros body activity -> ->. unfold default.
      destruct (process_activity activity _ w) as [[[r|]|e] w']; reflexivity.
Qed.

(** X17: The adapter is handed at most one activity per request, and that
    only when the content type passed, the body was read and the
    activity was made of it; the authorization header goes with it, or
    the empty text when the request has none.  Once the adapter was
    handed the activity the request is answered and no exception leaves
    the endpoint: with the status and body of the adapter's response,
    with 201 when it has none, with 500 when the adapter raised, and
    then this exception is the one logged.  When nothing was handed, the
    world is as it was and nothing is logged. *)
Theorem adapter_hand_over (req : Request) (w : World) :
  match handed (messages deserialize process_activity req w) with
  | [] =>
      world_after (messages deserialize process_activity req w) = w
      /\ errors (messages deserialize process_activity req w) = []
      /\ (answered (messages deserialize process_activity req w) = Ok (PlainResponse 415)
          \/ exists e, answered (messages deserialize process_activity req w) = Raise e)
  | [(activity, auth_header)] =>
      (exists ct body,
         content_type req = Some ct
         /\ PyStr.contains "application/json" ct = true
         /\ json_body req = Ok body
         /\ deserialize body = Ok activity)
      /\ auth_header = default "" (authorization req)
      /\ world_after (messages deserialize process_activity req w)
         = snd (process_activity activity auth_header w)
      /\ match fst (process_activity activity auth_header w) with
         | Ok (Some r) =>
             answered (messages deserialize process_activity req w)
             = Ok (JsonResponse (invoke_body r) (invoke_status r))
             /\ errors (messages deserialize process_activity req w) = []
         | Ok None =>
             answered (messages deserialize process_activity req w)
             = Ok (PlainResponse 201)
             /\ errors (messages deserialize process_activity req w) = []
         | Raise e =>
             answered (messages deserialize process_activity req w)
             = Ok (PlainResponse 500)
             /\ errors (messages deserialize process_activity req w) = [e]
         end
  | _ => False
  end.
Proof.
  unfold messages. destruct (content_type req) as [ct|]; [|cbn; eauto 6].
  destruct (PyStr.contains "application/json" ct) eqn:Ect; [|cbn; eauto 6].
  destruct (json_body req) as [body|e]; [|cbn; eauto 6].
  destruct (deserialize body) as [activity|e] eqn:Ed; [|cbn; eauto 6].
  destruct (process_activity activity
              match authorization req with Some a => a | None => "" end w)
    as [[[r|]|e] w'] eqn:Ep; cbn [handed]; unfold default; rewrite Ep; cbn;
    (split; [exists ct, body; auto|]); auto.
Qed.

End Served.

(** ** What the answers hold *)

Lemma first_text_not_empty (l : list GenieAttachment) (c : string) :
  first_text l = Some c -> c <> "".
Proof.
  induction l as [|a l IH]; [discriminate|]. cbn [first_text].
  destruct (text a) as [t|]; [|exact IH].
  destruct (text_content t) as [c'|]; [|exact IH].
  destruct (String.eqb c' "") eqn:E; [exact IH|].
  intros H. injection H as <-. now apply String.eqb_neq.
Qed.

Section Answers.
Context {World : Type} (genie_api : GenieAPI World) (space_id : string).

(** X4: A reply without a query result is answered with two calls, the first
    call and the call for the message, and the answer is one message: the
    content of the first text attachment that has some, or else the
    content of the message, so that the text is empty only if the content
    of the message is.  Nothing is logged, and both renderers pass the
    text on as it is. *)
Theorem text_answer (question : string) (given : option string) (st : env)
    (m message_content : GenieMessage) (w w' : World) :
  first_reply genie_api space_id question given (world st) = (Ok m, w) ->
  query_result m = None ->
  get_message genie_api space_id (conversation_id m) (id m) w = (Ok message_content, w') ->
  fst (fst (ask_genie genie_api question space_id given st))
  = [("message", PStr (answer_text message_content))]
  /\ calls (snd (ask_genie genie_api question space_id given st))
     = (calls st ++ [first_call space_id question given;
                     GetMessage space_id (conversation_id m) (id m)])%list
  /\ logged (snd (ask_genie genie_api question space_id given st)) = logged st
  /\ (answer_text message_content = "" -> content message_content = "")
  /\ process_query_results [("message", PStr (answer_text message_content))]
     = Ok (answer_text message_content ++ NL ++ NL)
  /\ process_for_slack [("message", PStr (answer_text message_content))]
     = Ok [section (PStr (answer_text message_content))].
Proof.
  intros Hfirst Hq Hget.
  assert (Hpay : message_payload message_content
                 = [("message", PStr (answer_text message_content))]).
  { unfold message_payload, answer_text.
    destruct (attachments message_content) as [l|]; [|reflexivity].
    destruct (first_text l); reflexivity. }
  assert (Hrun : forall cv st1,
            world st1 = w ->
            answer genie_api space_id m (cv, st1)
            = (Ok (message_payload message_content),
               (cv, {| world := w';
                       calls := (calls st1
                                 ++ [GetMessage space_id (conversation_id m) (id m)])%list;
                       logged := logged st1 |}))).
  { intros cv st1 Hw. unfold answer, fetch_query_result, bind, invoke, ret.
    rewrite Hq. cbn [fst snd]. rewrite Hw, Hget. reflexivity. }
  split; [|split; [|split; [|split; [|split]]]].
  - unfold ask_genie. rewrite ask_genie_try_unfold. unfold first_reply in Hfirst.
    destruct given as [c|]; rewrite Hfirst, Hrun by reflexivity; exact Hpay.
  - unfold ask_genie. rewrite ask_genie_try_unfold. unfold first_reply in Hfirst.
    destruct given as [c|]; rewrite Hfirst, Hrun by reflexivity; cbn [fst snd calls];
      now rewrite <- app_assoc.
  - unfold ask_genie. rewrite ask_genie_try_unfold. unfold first_reply in Hfirst.
    destruct given as [c|]; rewrite Hfirst, Hrun by reflexivity; reflexivity.
  - unfold answer_text. destruct (attachments message_content) as [l|]; [|auto].
    destruct (first_text l) as [c|] eqn:E; [|auto].
    intros ->. now apply first_text_not_empty in E.
  - reflexivity.
  - reflexivity.
Qed.

(** X5: A reply with a query result that has a statement is answered with
    four calls.  When all of them return, the payload holds the schema of
    the statement under [columns], its result under [data], and the first
    description among the attachments of the message that is not empty,
    or the empty text.  A message without a list of attachments, which a
    text answer puts up with, makes the run end in the error payload here,
    after the statement was fetched; so does a statement without schema or
    without result. *)
Theorem table_answer (question : string) (given : option string) (st : env)
    (m message_content : GenieMessage) (qr : QueryResult) (sr : StatementRef)
    (results : StatementResponse) (w w1 w2 w3 : World) :
  first_reply genie_api space_id question given (world st) = (Ok m, w) ->
  query_result m = Some tt ->
  get_message_query_result genie_api space_id (conversation_id m) (id m) w = (Ok qr, w1) ->
  statement_response qr = Some sr ->
  get_message genie_api space_id (conversation_id m) (id m) w1 = (Ok message_content, w2) ->
  get_statement genie_api (statement_id sr) w2 = (Ok results, w3) ->
  calls (snd (ask_genie genie_api question space_id given st))
  = (calls st ++ [first_call space_id question given;
                  GetMessageQueryResult space_id (conversation_id m) (id m);
                  GetMessage space_id (conversation_id m) (id m);
                  GetStatement (statement_id sr)])%list
  /\ fst (fst (ask_genie genie_api question space_id given st))
     = match attachments message_content, manifest_schema results, result_data results with
       | Some l, Some columns, Some data =>
           [("columns", PDict columns); ("data", PDict data);
            ("query_description", PStr (first_description l))]
       | _, _, _ => error_payload
       end
  /\ logged (snd (ask_genie genie_api question space_id given st))
     = match attachments message_content, manifest_schema results, result_data results with
       | Some l, Some columns, Some data => logged st
       | None, _, _ => (logged st ++ [TypeError])%list
       | _, _, _ => (logged st ++ [AttributeError])%list
       end.
Proof.
  intros Hfirst Hq Hqr Hsr Hget Hstmt.
  assert (Hrun : forall cv st1,
            world st1 = w ->
            answer genie_api space_id m (cv, st1)
            = (match attachments message_content, manifest_schema results,
                     result_data results with
               | Some l, Some columns, Some data =>
                   Ok [("columns", PDict columns); ("data", PDict data);
                       ("query_description", PStr (first_description l))]
               | None, _, _ => Raise TypeError
               | _, _, _ => Raise AttributeError
               end,
               (cv, {| world := w3;
                       calls := (calls st1
                                 ++ [GetMessageQueryResult space_id (conversation_id m) (id m);
                                     GetMessage space_id (conversation_id m) (id m);
                                     GetStatement (statement_id sr)])%list;
                       logged := logged st1 |}))).
  { intros cv st1 Hw.
    unfold answer, fetch_query_result, tabular_payload, bind, invoke, ret, lift.
    rewrite Hq. cbn [fst snd world calls logged]. rewrite Hw, Hqr. cbn [fst snd world].
    rewrite Hget, Hsr. cbn [fst snd world]. rewrite Hstmt. cbn [fst snd calls logged].
    rewrite <- !app_assoc. cbn [app].
    destruct (attachments message_content) as [l|]; [|reflexivity].
    destruct (manifest_schema results) as [columns|]; [|reflexivity].
    destruct (result_data results) as [data|]; reflexivity. }
  unfold ask_genie. rewrite ask_genie_try_unfold. unfold first_reply in Hfirst.
  destruct given as [c|]; rewrite Hfirst, Hrun by reflexivity; cbn [calls];
    rewrite <- app_assoc; cbn [app];
    (destruct (attachments message_content) as [l|];
     [destruct (manifest_schema results) as [columns|];
      [destruct (result_data results) as [data|]|]|]);
    repeat split; reflexivity.
Qed.

End Answers.

Lemma text_answer_witness :
  fst (fst (ask_genie Demo.api "hello" "space" None Demo.start))
  = [("message", PStr "You said done")]
  /\ calls (snd (ask_genie Demo.api "hello" "space" None Demo.start))
     = [StartConversation "space" "hello"; GetMessage "space" "T1" "m1"].
Proof.
  destruct (text_answer Demo.api "space" "hello" None Demo.start
              (Demo.reply_to "T1" "hello") (Demo.reply_to "T1" "done") 1 1
              eq_refl eq_refl eq_refl) as (Hp & Hc & _).
  split; [exact Hp | exact Hc].
Defined.

Lemma table_answer_witness :
  fst (fst (ask_genie Demo.api "how many orders today?" "space" (Some "T7") Demo.start))
  = orders_payload.
Proof.
  exact (proj1 (proj2 (table_answer Demo.api "space" "how many orders today?" (Some "T7")
                         Demo.start (Demo.reply_to "T7" "how many orders today?")
                         (Demo.reply_to "T7" "done")
                         {| statement_response := Some {| statement_id := "s1" |} |}
                         {| statement_id := "s1" |}
                         {| manifest_schema := Some Demo.schema;
                            result_data := Some Demo.rows |}
                         0 0 0 0 eq_refl eq_refl eq_refl eq_refl eq_refl eq_refl))).
Defined.

Lemma unsupported_media_type_witness :
  answered (messages (fun body => Ok body)
              (fun (activity : pyval) (auth_header : string) (w : nat) => (Ok None, S w))
              {| content_type := Some "application/json; charset=utf-8";
                 authorization := None;
                 json_body := Ok (PDict [("type", PStr "message")]) |} 0)
  <> Ok (PlainResponse 415)
  /\ answered (messages (fun body => Ok body)
                 (fun (activity : pyval) (auth_header : string) (w : nat) =>
                    (Ok (Some {| invoke_status := 415; invoke_body := PNone |}), S w))
                 {| content_type := Some "text/plain"; authorization := None;
                    json_body := Ok PNone |} 0)
     = Ok (PlainResponse 415).
Proof.
  split.
  - apply (proj2 (proj2 (unsupported_media_type (fun body => Ok body)
                           (fun (activity : pyval) (auth_header : string) (w : nat) =>
                              (Ok None, S w))
                           {| content_type := Some "application/json; charset=utf-8";
                              authorization := None;
                              json_body := Ok (PDict [("type", PStr "message")]) |} 0))
             "" "; charset=utf-8").
    reflexivity.
  - apply (proj1 (unsupported_media_type (fun body => Ok body)
                    (fun (activity : pyval) (auth_header : string) (w : nat) =>
                       (Ok (Some {| invoke_status := 415; invoke_body := PNone |}), S w))
                    {| content_type := Some "text/plain"; authorization := None;
                       json_body := Ok PNone |} 0) "text/plain"); reflexivity.
Defined.
